(** * Sparta Fitness dashboard (src/app.py): a shallow embedding

    The program is one Streamlit script.  Every user interaction re-runs it
    from the top: password gate, sheet read, type coercion, banner, lifetime
    totals, filters, period totals, trend charts, and the two write paths
    (append a row, delete the last row).

    The embedding keeps that shape.  A data frame is a header plus labelled
    rows; a run of the script is a computation in a small monad that records
    what the run shows and what it does to the sheet, and that can stop with
    a Python exception or with [st.rerun()].  Functions of pandas, of the
    Python library and of NumPy that the script only calls (date parsing,
    number parsing, number formatting, argsort) are the fields of the class
    [Library]; module [Concrete] gives one instance to run examples with. *)

From Stdlib Require Import String Ascii List ZArith QArith Bool Lia.
From Stdlib Require Import Permutation Sorted.
From Stdlib Require DecimalString DecimalZ DecimalPos.
Import ListNotations.

Local Open Scope string_scope.
Local Open Scope Z_scope.
Local Open Scope list_scope.

Set Implicit Arguments.

(** ** Python strings *)

Module Py.

(** [str.isspace] on the ASCII range: TAB, LF, VT, FF, CR, FS, GS, RS, US
    and the blank. *)
Definition isspace (c : ascii) : bool :=
  let n := nat_of_ascii c in
  (((9 <=? n) && (n <=? 13)) || ((28 <=? n) && (n <=? 32)))%nat.

Fixpoint lstrip_list (l : list ascii) : list ascii :=
  match l with
  | [] => []
  | c :: l' => if isspace c then lstrip_list l' else l
  end.

(** [s.strip()] *)
Definition strip (s : string) : string :=
  string_of_list_ascii
    (rev (lstrip_list (rev (lstrip_list (list_ascii_of_string s))))).

Definition lower_ascii (c : ascii) : ascii :=
  let n := nat_of_ascii c in
  if ((65 <=? n) && (n <=? 90))%nat then ascii_of_nat (n + 32) else c.

(** [s.lower()] on ASCII text *)
Fixpoint lower (s : string) : string :=
  match s with
  | EmptyString => EmptyString
  | String c s' => String (lower_ascii c) (lower s')
  end.

(** [str(n)] for an [int] *)
Definition str_int (z : Z) : string :=
  DecimalString.NilZero.string_of_int (Z.to_int z).

(** [x in xs] for strings *)
Definition mem (x : string) (xs : list string) : bool :=
  existsb (String.eqb x) xs.

(** [int(x)] for a number: truncation towards zero *)
Definition int (q : Q) : Z := Z.quot (Qnum q) (Zpos (Qden q)).

End Py.

(** ** Cells, rows and data frames *)

(** What a cell of a pandas object column can hold in this program. *)
Inductive Cell : Type :=
| NaN                 (* a blank: numpy [nan], pandas [NaT] *)
| Str (s : string)
| Int (z : Z)
| Float (q : Q)
| Bool (b : bool)
| Ts (t : Z)          (* pandas Timestamp: nanoseconds since 1970-01-01 *)
| Day (d : Z).        (* [datetime.date]: days since 1970-01-01 *)

(** A row maps column names to cells, in header order. *)
Definition Row := list (string * Cell).

(** [columns] is the header; each row carries its index label. *)
Record DataFrame : Type := mkDF {
  columns : list string;
  rows : list (nat * Row)
}.

(** The sheet as stored: a header and rows, no index. *)
Record Sheet : Type := mkSheet {
  header : list string;
  body : list Row
}.

Module pd.

Definition isna (c : Cell) : bool :=
  match c with NaN => true | _ => false end.

(** [row[col]], a blank when the row has no such key *)
Fixpoint get (r : Row) (col : string) : Cell :=
  match r with
  | [] => NaN
  | (k, v) :: r' => if String.eqb k col then v else get r' col
  end.

Fixpoint has (r : Row) (col : string) : bool :=
  match r with
  | [] => false
  | (k, _) :: r' => String.eqb k col || has r' col
  end.

(** [row[col] = v]: overwrite in place, or add the key at the end *)
Fixpoint set (col : string) (v : Cell) (r : Row) : Row :=
  match r with
  | [] => [(col, v)]
  | (k, x) :: r' =>
      if String.eqb k col then (k, v) :: r' else (k, x) :: set col v r'
  end.

(** [pd.DataFrame()] *)
Definition empty_frame : DataFrame := mkDF [] [].

(** [len(df)] *)
Definition len (df : DataFrame) : nat := length (rows df).

(** [df.empty]: no column or no row *)
Definition empty (df : DataFrame) : bool :=
  match columns df, rows df with
  | [], _ => true
  | _, [] => true
  | _, _ => false
  end.

(** [col in df.columns] *)
Definition has_column (df : DataFrame) (col : string) : bool :=
  Py.mem col (columns df).

Definition labels (df : DataFrame) : list nat := map fst (rows df).

(** The values of [df[col]], row by row (the caller checks the header). *)
Definition series (df : DataFrame) (col : string) : list Cell :=
  map (fun r => get (snd r) col) (rows df).

Definition add_column (cols : list string) (col : string) : list string :=
  if Py.mem col cols then cols else cols ++ [col].

(** [df[col] = ...] with the new cell computed from the row *)
Definition assign_from (col : string) (f : Row -> Cell) (df : DataFrame)
  : DataFrame :=
  mkDF (add_column (columns df) col)
       (map (fun r => (fst r, set col (f (snd r)) (snd r))) (rows df)).

(** [df[col] = f(df[col])] for a cell-wise [f] *)
Definition assign_map (col : string) (f : Cell -> Cell) (df : DataFrame)
  : DataFrame :=
  assign_from col (fun r => f (get r col)) df.

(** [df[col] = values]: the i-th value goes to the i-th row *)
Fixpoint assign_rows (col : string) (rs : list (nat * Row))
         (vals : list Cell) : list (nat * Row) :=
  match rs with
  | [] => []
  | r :: rs' =>
      (fst r, set col (hd NaN vals) (snd r))
        :: assign_rows col rs' (tl vals)
  end.

Definition assign_values (col : string) (vals : list Cell)
           (df : DataFrame) : DataFrame :=
  mkDF (add_column (columns df) col) (assign_rows col (rows df) vals).

(** [df[mask]] with the mask computed row by row *)
Definition select (p : Row -> bool) (df : DataFrame) : DataFrame :=
  mkDF (columns df) (filter (fun r => p (snd r)) (rows df)).

(** [df.dropna(how='all')]: drop the rows that are blank in every column *)
Definition dropna_all (df : DataFrame) : DataFrame :=
  select (fun r => negb (forallb (fun kv => isna (snd kv)) r)) df.

(** [df.dropna(subset=[col])] *)
Definition dropna_subset (col : string) (df : DataFrame) : DataFrame :=
  select (fun r => negb (isna (get r col))) df.

(** [df.columns = df.columns.str.strip()] *)
Definition strip_columns (df : DataFrame) : DataFrame :=
  mkDF (map Py.strip (columns df))
       (map (fun r => (fst r, map (fun kv => (Py.strip (fst kv), snd kv))
                                  (snd r)))
            (rows df)).

(** [series.fillna(v)] on one cell *)
Definition fillna (v : Cell) (c : Cell) : Cell :=
  match c with NaN => v | _ => c end.

(** [df.iloc[:-1]] *)
Definition iloc_but_last (df : DataFrame) : DataFrame :=
  mkDF (columns df) (removelast (rows df)).

(** A row laid out on a header, blank where it has no value. *)
Definition conform (cols : list string) (r : Row) : Row :=
  map (fun c => (c, get r c)) cols.

Definition range_index (rs : list Row) : list (nat * Row) :=
  combine (seq 0 (length rs)) rs.

(** [pd.concat([a, b], ignore_index=True)]: the header is [a]'s followed by
    the columns only [b] has; every row is laid out on it; the index is
    renumbered. *)
Definition concat (a b : DataFrame) : DataFrame :=
  let cols :=
    columns a ++ filter (fun c => negb (Py.mem c (columns a))) (columns b) in
  mkDF cols
       (range_index (map (fun r => conform cols (snd r)) (rows a ++ rows b))).

(** What [conn.read] hands over for a sheet: a RangeIndex on its rows. *)
Definition of_sheet (s : Sheet) : DataFrame :=
  mkDF (header s) (range_index (body s)).

(** What [conn.update(data=df)] stores: header and rows, no index. *)
Definition to_sheet (df : DataFrame) : Sheet :=
  mkSheet (columns df) (map snd (rows df)).

(** Every row is laid out on the header, and no column name repeats. *)
Definition wf (df : DataFrame) : Prop :=
  NoDup (columns df) /\
  Forall (fun r => map fst (snd r) = columns df) (rows df).

End pd.

(** ** What the script calls but does not define *)

(** pandas, NumPy and the Python library.  [to_datetime] takes the whole
    column, as pandas does (it may infer one format for all cells), and
    answers cell by cell, [None] standing for [NaT]. *)
Class Library : Type := {
  (** [pd.to_datetime(texts, errors='coerce')], nanoseconds since the epoch *)
  to_datetime : list string -> list (option Z);
  (** [pd.to_numeric(text, errors='coerce')] on one text cell *)
  to_numeric : string -> option Q;
  (** [str(x)] for a float *)
  str_float : Q -> string;
  (** [str(t)] for a Timestamp *)
  str_timestamp : Z -> string;
  (** [d.strftime("%Y-%m-%d")], which is also [str(d)], for a date *)
  isoformat : Z -> string;
  (** the argsort behind [sort_values(..., ascending=False)]: the positions
      of the keys, largest key first *)
  argsort_desc : list Z -> list nat
}.

(** What the script relies on from the library. *)
Record LibraryLaws (L : Library) : Prop := {
  (** an empty text and the text of a blank are not dates *)
  to_datetime_blank :
    forall texts i s, nth_error texts i = Some s ->
      s = "" \/ s = "nan" -> nth i (to_datetime texts) None = None;
  (** argsort answers a permutation of the positions *)
  argsort_perm :
    forall ks, Permutation (argsort_desc ks) (seq 0 (length ks));
  (** in which the keys never increase *)
  argsort_sorted :
    forall ks,
      StronglySorted Z.ge (map (fun i => nth i ks 0) (argsort_desc ks))
}.

(** ** Runs of the script *)

Inductive exn : Type :=
| KeyError (key : string)
| IndexError
| NameError (name : string)
| TypeError.

(** The form of section 7. *)
Record Entry : Type := {
  f_date : Z;
  f_pull : Z; f_push : Z; f_abs : bool;
  f_squat : Z; f_burp : Z; f_weights : bool;
  f_ctype : string; f_cmin : Z; f_stretch : bool;
  f_wgt : Q; f_fat : Q; f_waist : Q;
  f_comm : string
}.

Inductive View : Type := FullHistory | LastYear | LastMonth | LastWeek.

Inductive Action : Type :=
| NoAction
| Submit (e : Entry)      (* "Submit Entry" pressed with this form *)
| Delete.                 (* "Delete Last Entry" pressed *)

(** What one run gets from outside: the sheet ([None]: the read raises), the
    widget values and the date of the day. *)
Record Inputs : Type := {
  sheet : option Sheet;
  view_opt : View;
  cardio_choice : string;
  range_choice : option (Z * Z);
  today : Z;
  action : Action
}.

(** What a run shows and does.  Titles, rules and layout are left out. *)
Inductive Event : Type :=
| PasswordPrompt (incorrect : bool)
| SheetRead
| LoadError
| Banner (date : Cell) (comment : Cell)
| Metric (label : string) (value : Z)
| Chart (metric : string) (data : DataFrame)
| SheetWrite (s : Sheet)
| Success (msg : string)
| HistoryLog (selected : string) (entries : nat) (data : DataFrame).

Inductive Outcome (A : Type) : Type :=
| Ret (a : A)
| Raise (e : exn)
| Rerun.

Arguments Raise {A} e.
Arguments Rerun {A}.

(** A computation: the events it emitted, and how it ended. *)
Definition M (A : Type) : Type := (list Event * Outcome A)%type.

Definition ret {A} (a : A) : M A := ([], Ret a).

Definition bind {A B} (m : M A) (k : A -> M B) : M B :=
  match m with
  | (t, Ret a) => let (t', o) := k a in (t ++ t', o)
  | (t, Raise e) => (t, Raise e)
  | (t, Rerun) => (t, Rerun)
  end.

Definition raise {A} (e : exn) : M A := ([], Raise e).
Definition emit (ev : Event) : M unit := ([ev], Ret tt).
Definition rerun {A} : M A := ([], Rerun).

Notation "x <- m ;; k" := (bind m (fun x => k))
  (at level 61, m at next level, right associativity).
Notation "m ;; k" := (bind m (fun _ => k))
  (at level 61, right associativity).

(** A Python variable that is bound only on some paths. *)
Definition var {A} (name : string) (v : option A) : M A :=
  match v with
  | Some a => ret a
  | None => raise (NameError name)
  end.

(** The names the imports of lines 1-5 bind. *)
Definition imported_names : list string :=
  ["st"; "GSheetsConnection"; "pd"; "date"; "alt"].

(** Evaluating a module-level name that the script itself never assigns. *)
Definition global (name : string) : M unit :=
  if Py.mem name imported_names then ret tt else raise (NameError name).

(** [df[col]] *)
Definition getcol (df : DataFrame) (col : string) : M (list Cell) :=
  if pd.has_column df col then ret (pd.series df col)
  else raise (KeyError col).

(** [row[col]] on a row taken out of a frame *)
Definition getitem (r : Row) (col : string) : M Cell :=
  if pd.has r col then ret (pd.get r col) else raise (KeyError col).

(** ** The password gate (lines 11-30) *)

(** The two keys of [st.session_state] the script uses. *)
Record SessionState : Type := {
  password_correct : option bool;
  password : option string
}.

(** A session starts with neither key. *)
Definition fresh_session : SessionState :=
  {| password_correct := None; password := None |}.

(** [password_entered], the [on_change] callback of the text input, run by
    the host with the typed text under key "password".  [secret] is
    [st.secrets["auth"]["password"]], [None] when "auth" is not in the
    secrets. *)
Definition password_entered (secret : option string) (typed : string)
           (ss : SessionState) : SessionState :=
  match secret with
  | Some pw =>
      if String.eqb typed pw
      then {| password_correct := Some true; password := None |}
      else {| password_correct := Some false; password := Some typed |}
  | None => {| password_correct := Some false; password := Some typed |}
  end.

Definition check_password (ss : SessionState) : M bool :=
  match password_correct ss with
  | None => emit (PasswordPrompt false) ;; ret false
  | Some false => emit (PasswordPrompt true) ;; ret false
  | Some true => ret true
  end.

(** ** The pipeline (lines 38-185) *)

Definition ns_per_day : Z := 86400 * 1000000000.

Definition text_cols : list string := ["Cardio Type"; "Comments"; "Weight Band"].

Definition num_cols : list string :=
  ["Pullups"; "Pushups"; "Squats"; "Burpees"; "Cardio Min/Reps";
   "Weight"; "Fat_Pct"; "Waist_cm"].

Definition bool_cols : list string := ["Abs"; "Weights"; "Stretched"].

Definition truthy_tokens : list string :=
  ["true"; "1"; "1.0"; "yes"; "y"; "checked"].

(** The value of a number cell; [sum] and the comparisons below are only
    applied to columns of [num_cols], which [normalize] has made numeric. *)
Definition num (c : Cell) : Q :=
  match c with
  | Int z => inject_Z z
  | Float q => q
  | Bool b => if b then 1%Q else 0%Q
  | _ => 0%Q
  end.

(** [series.sum()] *)
Definition sum (l : list Cell) : Q :=
  fold_left Qplus (map num l) 0%Q.

(** [cell > 0] *)
Definition gt0 (c : Cell) : bool :=
  match c with
  | Int z => 0 <? z
  | Float q => negb (Qle_bool q 0%Q)
  | Bool b => b
  | _ => false
  end.

(** [cell == True] *)
Definition eq_True (c : Cell) : bool :=
  match c with
  | Bool b => b
  | Int z => z =? 1
  | Float q => Qeq_bool q 1%Q
  | _ => false
  end.

(** [cell != text] *)
Definition ne_str (text : string) (c : Cell) : bool :=
  match c with
  | Str s => negb (String.eqb s text)
  | _ => true
  end.

(** [cell >= d] and [cell <= d] for a date [d] *)
Definition day_ge (d : Z) (c : Cell) : bool :=
  match c with Day x => d <=? x | _ => false end.

Definition day_le (d : Z) (c : Cell) : bool :=
  match c with Day x => x <=? d | _ => false end.

(** Truth value of a cell in an [if]: [nan] is a nonzero float. *)
Definition truthy (c : Cell) : bool :=
  match c with
  | NaN => true
  | Str s => negb (String.eqb s "")
  | Int z => negb (z =? 0)
  | Float q => negb (Qeq_bool q 0%Q)
  | Bool b => b
  | Ts _ => true
  | Day _ => true
  end.

(** [series.dt.date] on one cell *)
Definition dt_date (c : Cell) : Cell :=
  match c with
  | Ts t => Day (t / ns_per_day)
  | _ => NaN
  end.

Definition ts_key (r : Row) : Z :=
  match pd.get r "Date" with Ts t => t | _ => 0 end.

Definition day_key (r : Row) : Z :=
  match pd.get r "Date_Only" with Day d => d | _ => 0 end.

(** Rows in ascending order of their date. *)
Definition by_day (a b : nat * Row) : Prop :=
  day_key (snd a) <= day_key (snd b).

(** [series.min()] and [series.max()] on the dates of a column *)
Definition min_day (l : list Z) : Z :=
  match l with [] => 0 | d :: l' => fold_left Z.min l' d end.

Definition max_day (l : list Z) : Z :=
  match l with [] => 0 | d :: l' => fold_left Z.max l' d end.

Definition window_days (v : View) : option Z :=
  match v with
  | FullHistory => None
  | LastYear => Some 365
  | LastMonth => Some 30
  | LastWeek => Some 7
  end.

Definition entry_columns : list string :=
  ["Date"; "Pullups"; "Pushups"; "Squats"; "Burpees"; "Abs"; "Weights";
   "Cardio Type"; "Cardio Min/Reps"; "Stretched"; "Weight"; "Fat_Pct";
   "Waist_cm"; "Comments"].

(** Insertion into a list of strings sorted by code point (for [sorted]). *)
Fixpoint insert_sorted (s : string) (l : list string) : list string :=
  match l with
  | [] => [s]
  | x :: l' => if String.leb s x then s :: l else x :: insert_sorted s l'
  end.

Definition sorted (l : list string) : list string :=
  fold_right insert_sorted [] l.

(** [series.unique()]: the values in order of first appearance *)
Fixpoint unique (l : list string) : list string :=
  match l with
  | [] => []
  | x :: l' => x :: filter (fun y => negb (String.eqb x y)) (unique l')
  end.

(** [st.selectbox(label, options)]: the choice if it is an option, else the
    first option. *)
Definition selectbox (options : list string) (choice : string) : string :=
  if Py.mem choice options then choice else hd "" options.

Section Script.

Context {L : Library}.

(** [series.astype(str)] on one cell *)
Definition str (c : Cell) : string :=
  match c with
  | NaN => "nan"
  | Str s => s
  | Int z => Py.str_int z
  | Float q => str_float q
  | Bool b => if b then "True" else "False"
  | Ts t => str_timestamp t
  | Day d => isoformat d
  end.

(** Lines 44-46: the text columns the header names, blanks made "N/A". *)
Definition fix_types (df_raw : DataFrame) : DataFrame :=
  fold_left
    (fun d col =>
       if pd.has_column d col
       then pd.assign_map col (fun c => Str (str (pd.fillna (Str "N/A") c))) d
       else d)
    text_cols df_raw.

(** Lines 40-52: the read and what is done to the table at read time; a
    failing read is caught and leaves the empty frame. *)
Definition load (src : option Sheet) : M DataFrame :=
  emit SheetRead ;;
  match src with
  | Some s => ret (pd.dropna_all (pd.strip_columns (fix_types (pd.of_sheet s))))
  | None => emit LoadError ;; ret pd.empty_frame
  end.

Definition timestamp_cell (o : option Z) : Cell :=
  match o with Some t => Ts t | None => NaN end.

(** [pd.to_numeric(series, errors='coerce').fillna(0)] on one cell *)
Definition coerce_numeric (c : Cell) : Cell :=
  match c with
  | Int z => Int z
  | Float q => Float q
  | Bool b => Int (if b then 1 else 0)
  | Str s => match to_numeric s with Some q => Float q | None => Float 0%Q end
  | Ts t => Int t
  | NaN | Day _ => Float 0%Q
  end.

(** [series.astype(str).str.lower().isin(truthy_tokens)] on one cell *)
Definition coerce_bool (c : Cell) : Cell :=
  Bool (Py.mem (Py.lower (str c)) truthy_tokens).

Definition coerce_columns (cols : list string) (f : Cell -> Cell)
           (df : DataFrame) : DataFrame :=
  fold_left
    (fun d col => if pd.has_column d col then pd.assign_map col f d else d)
    cols df.

(** The dates of lines 57-59. *)
Definition parse_dates (df_raw : DataFrame) (dates : list Cell) : DataFrame :=
  let parsed := to_datetime (map (fun c => Py.strip (str c)) dates) in
  let df := pd.assign_values "Date" (map timestamp_cell parsed) df_raw in
  let df := pd.dropna_subset "Date" df in
  pd.assign_from "Date_Only" (fun r => dt_date (pd.get r "Date")) df.

(** Lines 56-71. *)
Definition normalize (df_raw : DataFrame) : M DataFrame :=
  dates <- getcol df_raw "Date" ;;
  ret (coerce_columns bool_cols coerce_bool
         (coerce_columns num_cols coerce_numeric (parse_dates df_raw dates))).

(** [df.sort_values(col, ascending=False)], the column read through [key] *)
Definition sort_values_desc (key : Row -> Z) (df : DataFrame) : DataFrame :=
  mkDF (columns df)
       (flat_map
          (fun i => match nth_error (rows df) i with
                    | Some r => [r]
                    | None => []
                    end)
          (argsort_desc (map (fun r => key (snd r)) (rows df)))).

(** Line 74. *)
Definition latest_entry (df : DataFrame) : M Row :=
  match rows (sort_values_desc ts_key df) with
  | [] => raise IndexError
  | r :: _ => ret (snd r)
  end.

(** Lines 75-79. *)
Definition banner (latest : Row) : M unit :=
  latest_date <- getitem latest "Date_Only" ;;
  latest_comment <- getitem latest "Comments" ;;
  if truthy latest_comment && ne_str "N/A" latest_comment
  then emit (Banner latest_date latest_comment)
  else ret tt.

(** Lines 86-93. *)
Definition get_sum (df : DataFrame) (col : string) : Z :=
  if pd.has_column df col then Py.int (sum (pd.series df col)) else 0.

Definition get_count (df : DataFrame) (col : string) : Z :=
  if pd.has_column df col
  then Z.of_nat (length (filter eq_True (pd.series df col)))
  else 0.

Definition get_cardio_sessions (df : DataFrame) : Z :=
  if pd.has_column df "Cardio Type"
  then Z.of_nat (length (filter (ne_str "None") (pd.series df "Cardio Type")))
  else 0.

(** Lines 82-109. *)
Definition lifetime_totals (df : DataFrame) : M unit :=
  if negb (pd.empty df) then
    emit (Metric "Total Pullups" (get_sum df "Pullups")) ;;
    emit (Metric "Abs Sessions" (get_count df "Abs")) ;;
    emit (Metric "Total Squats" (get_sum df "Squats")) ;;
    emit (Metric "Weight Sessions" (get_count df "Weights")) ;;
    emit (Metric "Total Pushups" (get_sum df "Pushups")) ;;
    emit (Metric "Stretch Sessions" (get_count df "Stretched")) ;;
    emit (Metric "Total Burpees" (get_sum df "Burpees")) ;;
    emit (Metric "Cardio Sessions" (get_cardio_sessions df)) ;;
    emit (Metric "Total minutes" (get_sum df "Cardio Min/Reps"))
  else ret tt.

Definition is_text (c : Cell) : bool :=
  match c with Str _ => true | _ => false end.

Definition texts (l : list Cell) : list string :=
  flat_map (fun c => match c with Str s => [s] | _ => [] end) l.

(** Line 119.  The column is text whenever the header names it exactly
    ([fix_types]); [sorted] on text and a blank raises TypeError (a column of
    numbers only, which Python can order, is outside this model). *)
Definition cardio_options (df : DataFrame) : M (list string) :=
  types <- getcol df "Cardio Type" ;;
  if forallb is_text types
  then ret ("All" :: sorted
              (filter (fun x => negb (Py.mem x ["N/A"; "0"; "0.0"; "None"]))
                      (unique (texts types))))
  else raise TypeError.

(** Line 126. *)
Definition filter_by_date_range (lo hi : Z) (df : DataFrame) : DataFrame :=
  pd.select (fun r => day_ge lo (pd.get r "Date_Only")
                      && day_le hi (pd.get r "Date_Only")) df.

(** Lines 128-134.  [date.today() - timedelta(days=n)] evaluates the name
    [timedelta]. *)
Definition filter_by_relative_window (v : View) (today : Z)
           (chart_df : DataFrame) : M DataFrame :=
  match window_days v with
  | None => ret chart_df
  | Some n =>
      global "timedelta" ;;
      ret (pd.select (fun r => day_ge (today - n) (pd.get r "Date_Only"))
                     chart_df)
  end.

Definition eq_str (text : string) (c : Cell) : bool :=
  match c with Str s => String.eqb s text | _ => false end.

(** Lines 136-138. *)
Definition filter_by_category (selected_type : string)
           (chart_df : DataFrame) : DataFrame :=
  if negb (String.eqb selected_type "All")
  then pd.select (fun r => eq_str selected_type (pd.get r "Cardio Type"))
                 chart_df
  else chart_df.

(** The variables section 5 binds. *)
Record Views : Type := {
  selected_type : string;
  chart_df : DataFrame;
  activity_df : DataFrame
}.

(** Lines 114-155. *)
Definition filtering (inp : Inputs) (df : DataFrame) : M Views :=
  cardio_options <- cardio_options df ;;
  let selected_type := selectbox cardio_options (cardio_choice inp) in
  days <- getcol df "Date_Only" ;;
  let abs_min_date := min_day (map (fun r => day_key (snd r)) (rows df)) in
  let abs_max_date := max_day (map (fun r => day_key (snd r)) (rows df)) in
  let sel_range :=
    match range_choice inp with
    | Some r => r
    | None => (abs_min_date, abs_max_date)
    end in
  let chart_df := filter_by_date_range (fst sel_range) (snd sel_range) df in
  chart_df <- filter_by_relative_window (view_opt inp) (today inp) chart_df ;;
  let activity_df := filter_by_category selected_type chart_df in
  pullups <- getcol chart_df "Pullups" ;;
  emit (Metric "Pullups" (Py.int (sum pullups))) ;;
  squats <- getcol chart_df "Squats" ;;
  emit (Metric "Squats" (Py.int (sum squats))) ;;
  pushups <- getcol chart_df "Pushups" ;;
  emit (Metric "Pushups" (Py.int (sum pushups))) ;;
  cardio <- getcol activity_df "Cardio Min/Reps" ;;
  types <- getcol activity_df "Cardio Type" ;;
  emit (Metric (selected_type ++ " Sessions")
               (Z.of_nat (length (filter (ne_str "None") types)))) ;;
  emit (Metric "Total Min" (Py.int (sum cardio))) ;;
  ret {| selected_type := selected_type;
         chart_df := chart_df;
         activity_df := activity_df |}.

(** One tab of lines 165-185: the rows of the subset with a value above 0,
    handed to the chart as they are. *)
Definition trend_series (metric : string) (chart_df : DataFrame) : DataFrame :=
  pd.select (fun r => gt0 (pd.get r metric)) chart_df.

Definition trend_tab (metric : string) (chart_df : DataFrame) : M unit :=
  getcol chart_df metric ;;
  let data := trend_series metric chart_df in
  if negb (pd.empty data) then emit (Chart metric data) else ret tt.

(** Lines 162-185. *)
Definition progress_trends (chart_df : DataFrame) : M unit :=
  if negb (pd.empty chart_df) then
    trend_tab "Weight" chart_df ;;
    trend_tab "Fat_Pct" chart_df ;;
    trend_tab "Waist_cm" chart_df
  else ret tt.

(** ** The write paths (lines 219-239) *)

(** Lines 220-225: the one-row frame built from the form. *)
Definition entry_row (e : Entry) : Row :=
  [("Date", Str (isoformat (f_date e)));
   ("Pullups", Int (f_pull e)); ("Pushups", Int (f_push e));
   ("Squats", Int (f_squat e)); ("Burpees", Int (f_burp e));
   ("Abs", Bool (f_abs e)); ("Weights", Bool (f_weights e));
   ("Cardio Type", Str (f_ctype e));
   ("Cardio Min/Reps", Int (f_cmin e));
   ("Stretched", Bool (f_stretch e));
   ("Weight", Float (f_wgt e)); ("Fat_Pct", Float (f_fat e));
   ("Waist_cm", Float (f_waist e));
   ("Comments", Str (f_comm e))].

Definition new_data (e : Entry) : DataFrame :=
  mkDF entry_columns [(0%nat, entry_row e)].

(** Line 226. *)
Definition append (df_raw : DataFrame) (e : Entry) : DataFrame :=
  pd.concat df_raw (new_data e).

(** Line 236. *)
Definition delete_most_recent (df_raw : DataFrame) : DataFrame :=
  pd.iloc_but_last df_raw.

Definition data_management (df_raw : DataFrame) (a : Action) : M unit :=
  match a with
  | NoAction => ret tt
  | Submit e =>
      emit (SheetWrite (pd.to_sheet (append df_raw e))) ;;
      emit (Success "Log added successfully!") ;;
      rerun
  | Delete =>
      if negb (pd.empty df_raw) then
        emit (SheetWrite (pd.to_sheet (delete_most_recent df_raw))) ;;
        emit (Success "Last entry deleted.") ;;
        rerun
      else ret tt
  end.

(** ** The script *)

(** Lines 34-243, the body of [if check_password():].  [df] and the
    variables of section 5 are bound only when [df_raw] is not empty. *)
Definition main (inp : Inputs) : M unit :=
  df_raw <- load (sheet inp) ;;
  df <- (if negb (pd.empty df_raw) then
           df <- normalize df_raw ;;
           latest <- latest_entry df ;;
           banner latest ;;
           lifetime_totals df ;;
           ret (Some df)
         else ret None) ;;
  views <- (if negb (pd.empty df_raw) then
              df <- var "df" df ;;
              views <- filtering inp df ;;
              ret (Some views)
            else ret None) ;;
  chart <- var "chart_df" (option_map chart_df views) ;;
  progress_trends chart ;;
  data_management df_raw (action inp) ;;
  selected <- var "selected_type" (option_map selected_type views) ;;
  activity <- var "activity_df" (option_map activity_df views) ;;
  emit (HistoryLog selected (pd.len activity)
                   (sort_values_desc day_key activity)).

(** One run of the script. *)
Definition run (ss : SessionState) (inp : Inputs) : M unit :=
  ok <- check_password ss ;;
  if ok then main inp else ret tt.

(** One interaction: the user may have typed into the password input (the
    host then runs the callback first), and the script runs. *)
Record Interaction : Type := {
  typed : option string;
  inputs : Inputs
}.

Definition callback (secret : option string) (it : Interaction)
           (ss : SessionState) : SessionState :=
  match typed it with
  | Some text => password_entered secret text ss
  | None => ss
  end.

(** The events of a session, run after run. *)
Fixpoint session (secret : option string) (ss : SessionState)
         (its : list Interaction) : list Event :=
  match its with
  | [] => []
  | it :: its' =>
      let ss' := callback secret it ss in
      fst (run ss' (inputs it)) ++ session secret ss' its'
  end.

End Script.

(** Reads and writes of the sheet, and anything shown from it. *)
Definition touches_sheet (ev : Event) : bool :=
  match ev with
  | PasswordPrompt _ => false
  | _ => true
  end.

(** ** One library to run the script with

    ISO dates ([YYYY-MM-DD]), plain decimal numbers and a stable argsort:
    what pandas and NumPy answer on such cells (NumPy's default sort is an
    insertion sort up to 16 keys, and pandas reverses the keys around it so
    that equal keys keep their order under [ascending=False]). *)

Module Concrete.

Definition is_digit (c : ascii) : bool :=
  let n := nat_of_ascii c in ((48 <=? n) && (n <=? 57))%nat.

Definition digit (c : ascii) : Z := Z.of_nat (nat_of_ascii c) - 48.

Definition number (l : list ascii) : Z :=
  fold_left (fun acc c => acc * 10 + digit c) l 0.

Definition digits (l : list ascii) : option Z :=
  match l with
  | [] => None
  | _ => if forallb is_digit l then Some (number l) else None
  end.

(** Days since 1970-01-01 of a date of the proleptic Gregorian calendar. *)
Definition days_from_civil (y m d : Z) : Z :=
  let y' := if m <=? 2 then y - 1 else y in
  let era := y' / 400 in
  let yoe := y' - era * 400 in
  let doy := (153 * (if 2 <? m then m - 3 else m + 9) + 2) / 5 + d - 1 in
  let doe := yoe * 365 + yoe / 4 - yoe / 100 + doy in
  era * 146097 + doe - 719468.

Definition civil_from_days (z : Z) : Z * Z * Z :=
  let z := z + 719468 in
  let era := z / 146097 in
  let doe := z - era * 146097 in
  let yoe := (doe - doe / 1460 + doe / 36524 - doe / 146096) / 365 in
  let doy := doe - (365 * yoe + yoe / 4 - yoe / 100) in
  let mp := (5 * doy + 2) / 153 in
  let d := doy - (153 * mp + 2) / 5 + 1 in
  let m := if mp <? 10 then mp + 3 else mp - 9 in
  let y := yoe + era * 400 in
  ((if m <=? 2 then y + 1 else y), m, d).

Definition is_leap (y : Z) : bool :=
  ((y mod 4 =? 0) && negb (y mod 100 =? 0)) || (y mod 400 =? 0).

Definition days_in_month (y m : Z) : Z :=
  if m =? 2 then (if is_leap y then 29 else 28)
  else if (m =? 4) || (m =? 6) || (m =? 9) || (m =? 11) then 30
  else 31.

(** A date written [YYYY-MM-DD], as nanoseconds since the epoch. *)
Definition parse_iso (s : string) : option Z :=
  match list_ascii_of_string s with
  | [y1; y2; y3; y4; "-"%char; m1; m2; "-"%char; d1; d2] =>
      match digits [y1; y2; y3; y4], digits [m1; m2], digits [d1; d2] with
      | Some y, Some m, Some d =>
          if (1 <=? m) && (m <=? 12) && (1 <=? d) && (d <=? days_in_month y m)
          then Some (days_from_civil y m d * ns_per_day)
          else None
      | _, _, _ => None
      end
  | _ => None
  end.

Fixpoint split_at_dot (l : list ascii) : list ascii * option (list ascii) :=
  match l with
  | [] => ([], None)
  | c :: l' =>
      if Ascii.eqb c "."%char then ([], Some l')
      else let (a, b) := split_at_dot l' in (c :: a, b)
  end.

Definition unsigned_decimal (l : list ascii) : option Q :=
  match split_at_dot l with
  | (ip, None) => option_map inject_Z (digits ip)
  | (ip, Some fp) =>
      match digits ip with
      | Some i =>
          if forallb is_digit fp
          then Some (Qred (inject_Z i
                           + Qmake (number fp)
                                   (Z.to_pos (10 ^ Z.of_nat (length fp)))))
          else None
      | None => None
      end
  end.

(** A decimal number with an optional sign. *)
Definition parse_decimal (s : string) : option Q :=
  match list_ascii_of_string s with
  | "-"%char :: l => option_map Qopp (unsigned_decimal l)
  | "+"%char :: l => unsigned_decimal l
  | l => unsigned_decimal l
  end.

Definition pad2 (z : Z) : string :=
  if z <? 10 then "0" ++ Py.str_int z else Py.str_int z.

Definition pad4 (z : Z) : string :=
  if z <? 10 then "000" ++ Py.str_int z
  else if z <? 100 then "00" ++ Py.str_int z
  else if z <? 1000 then "0" ++ Py.str_int z
  else Py.str_int z.

Definition format_iso (d : Z) : string :=
  let '(y, m, dd) := civil_from_days d in
  pad4 y ++ "-" ++ pad2 m ++ "-" ++ pad2 dd.

Definition format_timestamp (t : Z) : string :=
  let s := (t mod ns_per_day) / 1000000000 in
  format_iso (t / ns_per_day) ++ " " ++ pad2 (s / 3600) ++ ":"
    ++ pad2 ((s / 60) mod 60) ++ ":" ++ pad2 (s mod 60).

Fixpoint fraction_digits (fuel : nat) (num den : Z) : string :=
  match fuel with
  | O => ""
  | S fuel' =>
      if num =? 0 then ""
      else Py.str_int (num * 10 / den)
             ++ fraction_digits fuel' ((num * 10) mod den) den
  end.

(** A float written with its decimals (at most 17), ".0" for a whole one. *)
Definition format_float (q : Q) : string :=
  let n := Z.abs (Qnum q) in
  let d := Zpos (Qden q) in
  let frac := fraction_digits 17 (n mod d) d in
  (if Qnum q <? 0 then "-" else "")
    ++ Py.str_int (n / d) ++ "."
    ++ (if String.eqb frac "" then "0" else frac).

(** Insertion before the first smaller or equal key: with the keys inserted
    from the last to the first, equal keys stay in their order. *)
Fixpoint insert_desc (x : Z * nat) (l : list (Z * nat)) : list (Z * nat) :=
  match l with
  | [] => [x]
  | y :: l' => if fst y <=? fst x then x :: l else y :: insert_desc x l'
  end.

Definition sort_desc (l : list (Z * nat)) : list (Z * nat) :=
  fold_right insert_desc [] l.

(** Pairs in the order of decreasing keys. *)
Definition key_ge (a b : Z * nat) : Prop := fst a >= fst b.

Definition stable_argsort_desc (ks : list Z) : list nat :=
  map snd (sort_desc (combine ks (seq 0 (length ks)))).

#[export] Instance lib : Library := {|
  to_datetime := map parse_iso;
  to_numeric := parse_decimal;
  str_float := format_float;
  str_timestamp := format_timestamp;
  isoformat := format_iso;
  argsort_desc := stable_argsort_desc
|}.

End Concrete.

(** ** Sheets and inputs to run the script on *)

Module Examples.

(** A sheet row with the fourteen columns of the form. *)
Definition log_row (date : Cell) (pullups : Z) (ctype : Cell) (cmin : Z)
           (weight : Q) (comments : Cell) : Row :=
  [("Date", date); ("Pullups", Int pullups); ("Pushups", Int 0);
   ("Squats", Int 0); ("Burpees", Int 0); ("Abs", Bool false);
   ("Weights", Bool false); ("Cardio Type", ctype);
   ("Cardio Min/Reps", Int cmin); ("Stretched", Bool false);
   ("Weight", Float weight); ("Fat_Pct", Float 0%Q); ("Waist_cm", Float 0%Q);
   ("Comments", comments)].

(** A sheet row with nothing in it. *)
Definition blank_row : Row := map (fun c => (c, NaN)) entry_columns.

Definition log_sheet (body : list Row) : Sheet := mkSheet entry_columns body.

(** The sheet without one of its columns. *)
Definition without (col : string) (s : Sheet) : Sheet :=
  mkSheet (filter (fun c => negb (String.eqb c col)) (header s))
          (map (filter (fun kv => negb (String.eqb (fst kv) col))) (body s)).

(** No widget touched: full history, every cardio type, the whole range. *)
Definition visit (s : option Sheet) (v : View) (day : Z) (a : Action)
  : Inputs :=
  {| sheet := s; view_opt := v; cardio_choice := "All";
     range_choice := None; today := day; action := a |}.

(** 2025-01-10 *)
Definition today_8 : Z := 20098.

(** The entries of the window example: 2023-01-01, 2024-06-01, 2025-01-01. *)
Definition window_sheet : Sheet :=
  log_sheet
    [log_row (Str "2023-01-01") 1 (Str "Run") 10 (80#1) (Str "a");
     log_row (Str "2024-06-01") 2 (Str "None") 0 (79#1) NaN;
     log_row (Str "2025-01-01") 4 (Str "Skip") 5 (78#1) (Str "c")].

(** The three raw rows of the concrete scenario, the blank cardio type as
    the empty text and as a blank cell. *)
Definition scenario_sheet (blank : Cell) : Sheet :=
  mkSheet ["Date"; "Pullups"; "Cardio Type"; "Cardio Min/Reps"]
    [[("Date", Str "2024-01-01"); ("Pullups", Str "5");
      ("Cardio Type", blank); ("Cardio Min/Reps", Str "10")];
     [("Date", Str "bad"); ("Pullups", Str "3");
      ("Cardio Type", NaN); ("Cardio Min/Reps", NaN)];
     [("Date", Str "2024-01-02"); ("Pullups", Str "7");
      ("Cardio Type", Str "Run"); ("Cardio Min/Reps", Str "20")]].

(** Rows none of whose dates is a date. *)
Definition undated_sheet : Sheet :=
  log_sheet
    [log_row (Str "bad") 3 (Str "Run") 10 (80#1) (Str "x");
     log_row (Str "  ") 5 (Str "None") 0 (0#1) NaN].

(** A sheet with a row left blank between two entries. *)
Definition gap_sheet : Sheet :=
  log_sheet
    [log_row (Str "2024-01-01") 5 (Str "Run") 10 (80#1) (Str "x");
     blank_row;
     log_row (Str "2024-01-02") 7 (Str "None") 0 (79#1) NaN].


(** A later entry logged before an earlier one. *)
Definition backfilled_sheet : Sheet :=
  log_sheet
    [log_row (Str "2024-03-05") 5 (Str "Run") 10 (80#1) (Str "x");
     log_row (Str "2024-03-01") 7 (Str "Skip") 5 (81#1) (Str "y")].

(** A sheet that only has the date column. *)
Definition dates_only : DataFrame :=
  mkDF ["Date"] [(0%nat, [("Date", Str "2024-01-01")])].

Definition an_entry : Entry :=
  {| f_date := 19800;
     f_pull := 10; f_push := 20; f_abs := true;
     f_squat := 30; f_burp := 0; f_weights := false;
     f_ctype := "Run"; f_cmin := 25; f_stretch := true;
     f_wgt := 80#1; f_fat := 0%Q; f_waist := 0%Q;
     f_comm := "" |}.

(** The sheets a run writes. *)
Definition writes (evs : list Event) : list Sheet :=
  flat_map (fun ev => match ev with SheetWrite s => [s] | _ => [] end) evs.

(** The table as read (lines 41-49) and as normalised (lines 56-71), with
    the library of [Concrete]. *)
Definition read_and_normalize (s : Sheet) : M DataFrame :=
  df_raw <- @load Concrete.lib (Some s) ;;
  @normalize Concrete.lib df_raw.

Definition loaded (s : Sheet) : DataFrame :=
  match snd (@load Concrete.lib (Some s)) with
  | Ret df_raw => df_raw
  | _ => pd.empty_frame
  end.

Definition normalized (s : Sheet) : DataFrame :=
  match snd (read_and_normalize s) with
  | Ret df => df
  | _ => pd.empty_frame
  end.

(** The labels of the rows the filters of section 5 keep. *)
Definition chart_labels (inp : Inputs) : Outcome (list nat) :=
  snd (df_raw <- @load Concrete.lib (sheet inp) ;;
       df <- @normalize Concrete.lib df_raw ;;
       views <- filtering inp df ;;
       ret (pd.labels (chart_df views))).



(** The concrete scenario, with the blank cardio type read as [blank]: the
    number of rows kept, the lifetime pullups and the lifetime cardio
    sessions. *)
Definition scenario (blank : Cell) : Outcome (nat * Z * Z) :=
  snd (df <- read_and_normalize (scenario_sheet blank) ;;
       ret (pd.len df, get_sum df "Pullups", get_cardio_sessions df)).

(** The blank row once lines 44-46 have filled its text columns. *)
Definition filled_blank_row : Row :=
  pd.set "Comments" (Str "N/A") (pd.set "Cardio Type" (Str "N/A") blank_row).

(** A session in which the password is never right. *)
Definition locked_out : list Interaction :=
  [{| typed := None;
      inputs := visit (Some window_sheet) FullHistory today_8 NoAction |};
   {| typed := Some "guess";
      inputs := visit (Some window_sheet) FullHistory today_8 Delete |};
   {| typed := None;
      inputs := visit (Some window_sheet) LastWeek today_8
                      (Submit an_entry) |}].

End Examples.

(** ** Kinds of cells and of events *)

Definition is_number (c : Cell) : bool :=
  match c with Int _ | Float _ => true | _ => false end.

Definition is_bool (c : Cell) : bool :=
  match c with Bool _ => true | _ => false end.

Definition is_write (ev : Event) : bool :=
  match ev with SheetWrite _ => true | _ => false end.

Definition no_write (ev : Event) : Prop := is_write ev = false.

(** The events of a computation that wrote: quiet ones, then the write and
    its confirmation, and the run was restarted. *)
Definition wrote (s : Sheet) (msg : string) (m : M unit) : Prop :=
  exists pre,
    Forall no_write pre /\
    fst m = pre ++ [SheetWrite s; Success msg] /\
    snd m = Rerun.

(** The columns [normalize] assigns. *)
Definition normalized_cols : list string :=
  "Date" :: "Date_Only" :: num_cols ++ bool_cols.

(** A chart that would be drawn from no row, or from a value that is not
    above zero. *)
Definition sound_chart (ev : Event) : Prop :=
  match ev with
  | Chart metric data =>
      rows data <> [] /\
      Forall (fun r => gt0 (pd.get (snd r) metric) = true) (rows data)
  | _ => True
  end.

(** Strings in ascending order of their code points. *)
Definition leb_true (a b : string) : Prop := String.leb a b = true.

(** A text made of digits and minus signs only. *)
Fixpoint plain_number (s : string) : bool :=
  match s with
  | EmptyString => true
  | String c s' =>
      (Concrete.is_digit c || Ascii.eqb c "-"%char) && plain_number s'
  end.

(** A frame whose header is [cols] and whose rows are laid out on it. *)
Definition keyed (cols : list string) (df : DataFrame) : Prop :=
  columns df = cols /\
  Forall (fun r => map fst (snd r) = cols) (rows df).


(** A sheet with the fourteen columns of the form, as the form writes it. *)
Definition standard_sheet (s : Sheet) : Prop :=
  header s = entry_columns /\
  Forall (fun r => map fst r = entry_columns) (body s).

(** The texts line 119 keeps out of the cardio options. *)
Definition not_a_type : list string := ["N/A"; "0"; "0.0"; "None"].

(** * Properties *)

(** ** Rows and frames *)

Lemma get_set_same (col : string) (v : Cell) (r : Row) :
  pd.get (pd.set col v r) col = v.
Proof.
  induction r as [|[k x] r IH]; simpl.
  - now rewrite String.eqb_refl.
  - destruct (String.eqb_spec k col) as [E|E]; simpl.
    + now rewrite E, String.eqb_refl.
    + destruct (String.eqb_spec k col); [contradiction | exact IH].
Qed.

Lemma get_set_other (col col' : string) (v : Cell) (r : Row) :
  col <> col' -> pd.get (pd.set col v r) col' = pd.get r col'.
Proof.
  intros N. induction r as [|[k x] r IH]; simpl.
  - destruct (String.eqb_spec col col'); [contradiction | reflexivity].
  - destruct (String.eqb_spec k col) as [E|E]; simpl.
    + subst k. destruct (String.eqb_spec col col'); [contradiction | reflexivity].
    + destruct (String.eqb_spec k col'); [reflexivity | exact IH].
Qed.

Lemma mem_In (x : string) (xs : list string) :
  Py.mem x xs = true <-> In x xs.
Proof.
  unfold Py.mem. rewrite existsb_exists. split.
  - intros [y [Hy E]]. apply String.eqb_eq in E. now subst.
  - intros H. exists x. split; [exact H | apply String.eqb_refl].
Qed.

Lemma select_rows_In (p : Row -> bool) (df : DataFrame) (r : nat * Row) :
  In r (rows (pd.select p df)) <-> In r (rows df) /\ p (snd r) = true.
Proof. unfold pd.select; simpl. apply filter_In. Qed.


(** A cell-wise coercion of some columns changes rows in place and leaves
    the other columns as they were. *)
Lemma coerce_columns_rows (cols : list string) (f : Cell -> Cell)
      (df : DataFrame) :
  exists g : Row -> Row,
    rows (coerce_columns cols f df)
    = map (fun r => (fst r, g (snd r))) (rows df) /\
    forall c r, ~ In c cols -> pd.get (g r) c = pd.get r c.
Proof.
  revert df. induction cols as [|col cols IH]; intros df.
  - exists (fun r => r). split.
    + simpl. rewrite <- (map_id (rows df)) at 1. apply map_ext.
      now intros [i r].
    + reflexivity.
  - unfold coerce_columns in *. simpl.
    destruct (pd.has_column df col).
    + destruct (IH (pd.assign_map col f df)) as [g [Hg Hc]].
      exists (fun r => g (pd.set col (f (pd.get r col)) r)). split.
      * rewrite Hg. simpl. rewrite map_map. reflexivity.
      * intros c r N. rewrite Hc by (intros H; apply N; now right).
        apply get_set_other. intros E. apply N. now left.
    + destruct (IH df) as [g [Hg Hc]]. exists g. split; [exact Hg|].
      intros c r N. apply Hc. intros H. apply N. now right.
Qed.

(** The i-th value of an assigned column lands in the i-th row. *)
Lemma assign_rows_In (col : string) (rs : list (nat * Row))
      (vals : list Cell) (i : nat) (r : Row) :
  In (i, r) (pd.assign_rows col rs vals) ->
  exists k r0, nth_error rs k = Some (i, r0) /\
               r = pd.set col (nth k vals NaN) r0.
Proof.
  revert vals. induction rs as [|[j r1] rs IH]; intros vals H; simpl in H.
  - contradiction.
  - destruct H as [H|H].
    + inversion H; subst. exists 0%nat, r1. split; [reflexivity|].
      now destruct vals.
    + destruct (IH _ H) as [k [r0 [Hk Hr]]].
      exists (S k), r0. split; [exact Hk|].
      rewrite Hr. destruct vals; [destruct k|]; reflexivity.
Qed.

(** ** Normalisation keeps the rows whose date parsed *)

Section Normalize.

Context {L : Library}.

Lemma normalize_ret (df_raw df : DataFrame) :
  snd (normalize df_raw) = Ret df ->
  pd.has_column df_raw "Date" = true /\
  df = coerce_columns bool_cols coerce_bool
         (coerce_columns num_cols coerce_numeric
            (parse_dates df_raw (pd.series df_raw "Date"))).
Proof.
  unfold normalize, getcol.
  destruct (pd.has_column df_raw "Date");
    unfold bind, ret, raise; cbn [snd]; intros H.
  - split; [reflexivity | congruence].
  - discriminate.
Qed.

(** After the coercions a row still has the date cells [parse_dates] gave. *)
Lemma coerced_row (df0 : DataFrame) (i : nat) (r : Row) :
  In (i, r)
     (rows (coerce_columns bool_cols coerce_bool
              (coerce_columns num_cols coerce_numeric df0))) ->
  exists r0, In (i, r0) (rows df0) /\
             pd.get r "Date" = pd.get r0 "Date" /\
             pd.get r "Date_Only" = pd.get r0 "Date_Only".
Proof.
  destruct (coerce_columns_rows bool_cols coerce_bool
              (coerce_columns num_cols coerce_numeric df0)) as [g [Hg Gc]].
  destruct (coerce_columns_rows num_cols coerce_numeric df0) as [h [Hh Hc]].
  rewrite Hg, Hh, map_map. simpl. intros H.
  apply in_map_iff in H. destruct H as [[j r0] [E H]].
  simpl in E. inversion E; subst.
  assert (Nb : forall c, c = "Date" \/ c = "Date_Only" -> ~ In c bool_cols).
  { intros c [-> | ->] F; simpl in F; intuition discriminate. }
  assert (Nn : forall c, c = "Date" \/ c = "Date_Only" -> ~ In c num_cols).
  { intros c [-> | ->] F; simpl in F; intuition discriminate. }
  exists r0. split; [exact H|].
  split; rewrite Gc, Hc; auto.
Qed.

Lemma parse_dates_row (df_raw : DataFrame) (i : nat) (r : Row) :
  let parsed :=
    to_datetime (map (fun c => Py.strip (str c)) (pd.series df_raw "Date")) in
  In (i, r) (rows (parse_dates df_raw (pd.series df_raw "Date"))) ->
  exists k r0 t,
    nth_error (rows df_raw) k = Some (i, r0) /\
    nth k parsed None = Some t /\
    pd.get r "Date" = Ts t /\
    pd.get r "Date_Only" = Day (t / ns_per_day).
Proof.
  intros parsed. unfold parse_dates. fold parsed. simpl. intros H.
  apply in_map_iff in H. destruct H as [[j r2] [E H]].
  simpl in E. inversion E; subst; clear E.
  apply filter_In in H. destruct H as [H Hna]. simpl in Hna.
  apply assign_rows_In in H. destruct H as [k [r0 [Hk Hr]]].
  assert (Hd : pd.get r2 "Date" = timestamp_cell (nth k parsed None)).
  { rewrite Hr, get_set_same.
    change NaN with (timestamp_cell None). apply map_nth. }
  rewrite Hd in Hna.
  destruct (nth k parsed None) as [t|] eqn:Hp; [|discriminate].
  exists k, r0, t. split; [exact Hk|]. split; [exact Hp|].
  rewrite get_set_same, get_set_other by discriminate.
  rewrite Hd. simpl. split; reflexivity.
Qed.

Lemma normalize_rows (df_raw df : DataFrame) (i : nat) (r : Row) :
  snd (normalize df_raw) = Ret df ->
  In (i, r) (rows df) ->
  exists k r0 t,
    nth_error (rows df_raw) k = Some (i, r0) /\
    nth k (to_datetime
             (map (fun c => Py.strip (str c)) (pd.series df_raw "Date")))
        None = Some t /\
    pd.get r "Date" = Ts t /\
    pd.get r "Date_Only" = Day (t / ns_per_day).
Proof.
  intros Hn Hin. apply normalize_ret in Hn. destruct Hn as [_ ->].
  apply coerced_row in Hin. destruct Hin as [r1 [Hin [Ed Eo]]].
  apply parse_dates_row in Hin.
  destruct Hin as [k [r0 [t [Hk [Hp [Hd Ho]]]]]].
  exists k, r0, t. repeat split; congruence.
Qed.



End Normalize.

(** ** The latest entry *)

Section Latest.

Context {L : Library}.
Hypothesis Hlaws : LibraryLaws L.

Lemma key_at (key : Row -> Z) (rs : list (nat * Row)) (p : nat)
      (r : nat * Row) :
  nth_error rs p = Some r ->
  nth p (map (fun r => key (snd r)) rs) 0 = key (snd r).
Proof.
  intros H. apply nth_error_nth. rewrite nth_error_map, H. reflexivity.
Qed.



End Latest.


(** ** The library of the examples keeps the laws *)

Module ConcreteFacts.

Import Concrete.

Lemma insert_desc_perm (x : Z * nat) (l : list (Z * nat)) :
  Permutation (x :: l) (insert_desc x l).
Proof.
  induction l as [|y l IH]; simpl.
  - reflexivity.
  - destruct (fst y <=? fst x).
    + reflexivity.
    + rewrite perm_swap. now apply perm_skip.
Qed.

Lemma sort_desc_perm (l : list (Z * nat)) : Permutation l (sort_desc l).
Proof.
  induction l as [|x l IH]; simpl.
  - reflexivity.
  - rewrite <- insert_desc_perm. now apply perm_skip.
Qed.

Lemma insert_desc_sorted (x : Z * nat) (l : list (Z * nat)) :
  StronglySorted key_ge l -> StronglySorted key_ge (insert_desc x l).
Proof.
  induction l as [|y l IH]; simpl; intros S.
  - constructor; constructor.
  - apply StronglySorted_inv in S. destruct S as [S F].
    destruct (Z.leb_spec (fst y) (fst x)) as [Le|Gt].
    + constructor; [constructor; assumption|].
      constructor; [unfold key_ge; lia|].
      eapply Forall_impl; [|exact F]. unfold key_ge. intros a Ha. lia.
    + constructor; [now apply IH|].
      eapply Permutation_Forall; [apply insert_desc_perm|].
      constructor; [unfold key_ge; lia | exact F].
Qed.

Lemma sort_desc_sorted (l : list (Z * nat)) :
  StronglySorted key_ge (sort_desc l).
Proof.
  induction l as [|x l IH]; simpl.
  - constructor.
  - now apply insert_desc_sorted.
Qed.

Lemma map_snd_combine_seq (ks : list Z) (s : nat) :
  map snd (combine ks (seq s (length ks))) = seq s (length ks).
Proof.
  revert s. induction ks as [|k ks IH]; intros s; simpl.
  - reflexivity.
  - now rewrite IH.
Qed.

Lemma combine_seq_key (ks : list Z) (s : nat) (k : Z) (i : nat) :
  In (k, i) (combine ks (seq s (length ks))) ->
  (s <= i)%nat /\ nth_error ks (i - s) = Some k.
Proof.
  revert s. induction ks as [|k0 ks IH]; intros s; simpl.
  - contradiction.
  - intros [E|H].
    + inversion E; subst. split; [lia|]. now rewrite Nat.sub_diag.
    + apply IH in H. destruct H as [Le H]. split; [lia|].
      replace (i - s)%nat with (S (i - S s)) by lia. exact H.
Qed.

Lemma stable_argsort_perm (ks : list Z) :
  Permutation (stable_argsort_desc ks) (seq 0 (length ks)).
Proof.
  unfold stable_argsort_desc.
  rewrite <- (map_snd_combine_seq ks 0) at 2.
  apply Permutation_map, Permutation_sym, sort_desc_perm.
Qed.

Lemma sorted_keys (l : list (Z * nat)) :
  StronglySorted key_ge l -> StronglySorted Z.ge (map fst l).
Proof.
  induction 1 as [|a l S IH F]; simpl; constructor; [exact IH|].
  apply Forall_map. exact F.
Qed.

Lemma stable_argsort_sorted (ks : list Z) :
  StronglySorted Z.ge
    (map (fun i => nth i ks 0) (stable_argsort_desc ks)).
Proof.
  unfold stable_argsort_desc. rewrite map_map.
  rewrite (map_ext_in _ fst).
  - apply sorted_keys, sort_desc_sorted.
  - intros [k i] H. simpl.
    apply (Permutation_in _ (Permutation_sym (sort_desc_perm _))) in H.
    apply combine_seq_key in H. destruct H as [_ H].
    rewrite Nat.sub_0_r in H. now apply nth_error_nth.
Qed.

Lemma lib_laws : LibraryLaws lib.
Proof.
  constructor.
  - intros texts i s H B. simpl.
    assert (E : nth_error (map parse_iso texts) i = Some (parse_iso s))
      by (rewrite nth_error_map, H; reflexivity).
    rewrite (nth_error_nth _ _ None E).
    destruct B as [-> | ->]; reflexivity.
  - exact stable_argsort_perm.
  - exact stable_argsort_sorted.
Qed.

End ConcreteFacts.

(** ** Append and delete *)

Lemma map_removelast {A B : Type} (f : A -> B) (l : list A) :
  map f (removelast l) = removelast (map f l).
Proof.
  induction l as [|a l IH]; simpl.
  - reflexivity.
  - destruct l; simpl in *; [reflexivity | now rewrite IH].
Qed.

Lemma range_index_rows (rs : list Row) : map snd (pd.range_index rs) = rs.
Proof.
  unfold pd.range_index. generalize 0%nat.
  induction rs as [|r rs IH]; intros s; simpl.
  - reflexivity.
  - now rewrite IH.
Qed.

(** A row that is laid out on a header stays as it is when laid out on it
    again. *)
Lemma conform_id (r : Row) :
  NoDup (map fst r) -> pd.conform (map fst r) r = r.
Proof.
  unfold pd.conform. induction r as [|[k v] r IH]; simpl; intros ND.
  - reflexivity.
  - apply NoDup_cons_iff in ND. destruct ND as [Nk ND].
    rewrite String.eqb_refl. f_equal.
    transitivity (map (fun c => (c, pd.get r c)) (map fst r));
      [|exact (IH ND)].
    apply map_ext_in. intros c Hc.
    destruct (String.eqb_spec k c) as [->|_]; [contradiction | reflexivity].
Qed.

Lemma no_new_columns (cols extra : list string) :
  incl extra cols ->
  filter (fun c => negb (Py.mem c cols)) extra = [].
Proof.
  induction extra as [|c extra IH]; simpl; intros I.
  - reflexivity.
  - assert (M : Py.mem c cols = true) by (apply mem_In, I; now left).
    rewrite M. simpl. apply IH. intros x Hx. apply I. now right.
Qed.

Lemma conform_rows (df : DataFrame) :
  pd.wf df ->
  map (fun r => pd.conform (columns df) (snd r)) (rows df)
  = map snd (rows df).
Proof.
  intros [ND F]. apply map_ext_in. intros r Hr.
  rewrite Forall_forall in F. specialize (F r Hr).
  rewrite <- F in ND |- *. now apply conform_id.
Qed.

(** ** Trend series *)

Lemma filter_sorted {A : Type} (R : A -> A -> Prop) (p : A -> bool)
      (l : list A) :
  StronglySorted R l -> StronglySorted R (filter p l).
Proof.
  induction 1 as [|a l S IH F]; simpl.
  - constructor.
  - destruct (p a); [|exact IH].
    constructor; [exact IH|].
    rewrite Forall_forall in *. intros x Hx.
    apply filter_In in Hx. apply F. tauto.
Qed.

Lemma gt0_positive (c : Cell) : gt0 c = true -> (0 < num c)%Q.
Proof.
  destruct c as [|s|z|q|b|t|d]; simpl; try discriminate.
  - intros H. apply Z.ltb_lt in H. unfold Qlt. simpl. lia.
  - intros H. apply negb_true_iff in H.
    destruct (Qlt_le_dec 0 q) as [Lt|Le]; [exact Lt|].
    apply Qle_bool_iff in Le. congruence.
  - intros ->. reflexivity.
Qed.

(** ** The password gate *)

Section Gate.

Context {L : Library}.

Lemma run_locked (ss : SessionState) (inp : Inputs) :
  password_correct ss <> Some true ->
  exists incorrect, run ss inp = ([PasswordPrompt incorrect], Ret tt).
Proof.
  intros N. unfold run, check_password.
  destruct (password_correct ss) as [[|]|].
  - contradiction.
  - exists true. reflexivity.
  - exists false. reflexivity.
Qed.

Lemma callback_locked (secret : option string) (it : Interaction)
      (ss : SessionState) :
  (forall text, typed it = Some text -> secret <> Some text) ->
  password_correct ss <> Some true ->
  password_correct (callback secret it ss) <> Some true.
Proof.
  intros W N. unfold callback, password_entered.
  destruct (typed it) as [text|]; [|exact N].
  specialize (W text eq_refl).
  destruct secret as [pw|]; [|discriminate].
  destruct (String.eqb_spec text pw) as [->|_]; [|discriminate].
  now contradiction W.
Qed.

Lemma session_locked (secret : option string) (its : list Interaction)
      (ss : SessionState) :
  (forall it text, In it its -> typed it = Some text -> secret <> Some text) ->
  password_correct ss <> Some true ->
  Forall (fun ev => touches_sheet ev = false) (session secret ss its).
Proof.
  revert ss. induction its as [|it its IH]; intros ss W N; simpl.
  - constructor.
  - assert (N' : password_correct (callback secret it ss) <> Some true).
    { apply callback_locked; [|exact N].
      intros text. apply W. now left. }
    destruct (@run_locked _ (inputs it) N') as [b ->]. simpl.
    constructor; [reflexivity|].
    apply IH; [|exact N']. intros it' text H. apply W. now right.
Qed.

End Gate.

(** ** The labels of the table as read *)

Section Load.

Context {L : Library}.

Lemma labels_assign_from (col : string) (f : Row -> Cell) (df : DataFrame) :
  pd.labels (pd.assign_from col f df) = pd.labels df.
Proof.
  unfold pd.labels, pd.assign_from. cbn [rows].
  rewrite map_map. reflexivity.
Qed.

Lemma labels_fix_types (df : DataFrame) :
  pd.labels (fix_types df) = pd.labels df.
Proof.
  unfold fix_types. revert df.
  induction text_cols as [|col cols IH]; intros df; cbn [fold_left].
  - reflexivity.
  - rewrite IH. destruct (pd.has_column df col); [|reflexivity].
    apply labels_assign_from.
Qed.


Lemma labels_range_index (rs : list Row) :
  map fst (pd.range_index rs) = seq 0 (length rs).
Proof.
  unfold pd.range_index. generalize 0%nat.
  induction rs as [|r rs IH]; intros s; simpl.
  - reflexivity.
  - now rewrite IH.
Qed.


End Load.

(** * The claims *)

Lemma main_empty (L : Library) (inp : Inputs) (t : list Event)
      (df_raw : DataFrame) :
  load (sheet inp) = (t, Ret df_raw) ->
  pd.empty df_raw = true ->
  main inp = (t, Raise (NameError "chart_df")).
Proof.
  intros H E. unfold main. rewrite H. unfold bind at 1. rewrite E.
  cbn. now rewrite app_nil_r.
Qed.

(** C1 (the code breaks the claim).  With zero rows the run does not reach
    the identity values: when the read fails, or the sheet has a header and
    no row, [df_raw] is empty, section 5 is skipped and line 162 reads the
    unbound [chart_df] (NameError); when no date parses, line 74 takes
    [iloc[0]] of an empty frame (IndexError). *)
Theorem C1_empty_input_raises :
  (forall (L : Library) v c rg d a,
     main {| sheet := None; view_opt := v; cardio_choice := c;
             range_choice := rg; today := d; action := a |}
     = ([SheetRead; LoadError], Raise (NameError "chart_df"))) /\
  (forall v a,
     @main Concrete.lib
        (Examples.visit (Some (Examples.log_sheet [])) v Examples.today_8 a)
     = ([SheetRead], Raise (NameError "chart_df"))) /\
  @main Concrete.lib
     (Examples.visit (Some Examples.undated_sheet) FullHistory
                     Examples.today_8 NoAction)
  = ([SheetRead], Raise IndexError).
Proof.
  split; [|split].
  - intros. eapply main_empty; reflexivity.
  - intros. eapply main_empty; reflexivity.
  - vm_compute. reflexivity.
Qed.

(** C2 (the code breaks the claim).  The three relative windows evaluate
    [timedelta], a name the script never imports (line 4 imports [date]
    only), so the filter raises NameError instead of keeping the rows of the
    window; only the full history, which evaluates nothing, keeps all rows.
    On the example dates with today = 2025-01-10 the run ends in NameError
    for "Last Week", "Last Month" and "Last Year", and the full history
    keeps the three rows. *)
Theorem C2_relative_window_name_error :
  (forall (L : Library) (day : Z) (subset : DataFrame),
     filter_by_relative_window LastWeek day subset
       = raise (NameError "timedelta") /\
     filter_by_relative_window LastMonth day subset
       = raise (NameError "timedelta") /\
     filter_by_relative_window LastYear day subset
       = raise (NameError "timedelta") /\
     filter_by_relative_window FullHistory day subset = ret subset) /\
  (let visit v :=
     Examples.visit (Some Examples.window_sheet) v Examples.today_8 NoAction in
   snd (@main Concrete.lib (visit LastWeek)) = Raise (NameError "timedelta") /\
   snd (@main Concrete.lib (visit LastMonth)) = Raise (NameError "timedelta") /\
   snd (@main Concrete.lib (visit LastYear)) = Raise (NameError "timedelta") /\
   Examples.chart_labels (visit LastWeek) = Raise (NameError "timedelta") /\
   Examples.chart_labels (visit FullHistory) = Ret [0; 1; 2]%nat).
Proof.
  split.
  - intros. repeat split.
  - cbv zeta. repeat split; vm_compute; reflexivity.
Qed.

(** C3, the claim as stated fails: the session count of the scenario is not
    1, whether the blank type is an empty text or a blank cell. *)
Lemma C3_counterexample :
  ~ (Examples.scenario (Str "") = Ret (2%nat, 12, 1)) /\
  ~ (Examples.scenario NaN = Ret (2%nat, 12, 1)).
Proof. split; vm_compute; discriminate. Qed.

(** C3 (amended).  On the three raw rows normalisation keeps 2 rows (the
    second is dropped), the lifetime pullup total is 12, and the lifetime
    cardio session count is 2: the count leaves out the text "None" only, so
    the row with the blank cardio type is counted with the "Run" row. *)
Theorem C3_concrete_scenario :
  Examples.scenario (Str "") = Ret (2%nat, 12, 2) /\
  Examples.scenario NaN = Ret (2%nat, 12, 2) /\
  pd.labels (Examples.normalized (Examples.scenario_sheet NaN)) = [0; 2]%nat.
Proof. repeat split; vm_compute; reflexivity. Qed.

(** C4, the claim as stated fails: on a table that lacks columns of the
    form, [pd.concat] adds them to the header, and deleting the appended row
    leaves the wider table, not the original one. *)
Lemma C4_counterexample :
  pd.to_sheet
    (delete_most_recent (@append Concrete.lib Examples.dates_only
                                 Examples.an_entry))
  <> pd.to_sheet Examples.dates_only.
Proof.
  intros H. apply (f_equal header) in H. vm_compute in H. discriminate.
Qed.

(** C4 (amended).  For every raw table whose header has the columns of the
    form, each column name once, and every new entry, deleting the most recent entry after the
    append stores exactly the original table, row for row in its order;
    append puts the entry last after the existing rows, and delete drops
    exactly the last row of the table in its stored order. *)
Theorem C4_append_delete_round_trip (L : Library) (table : DataFrame)
        (e : Entry) :
  pd.wf table ->
  incl entry_columns (columns table) ->
  pd.to_sheet (delete_most_recent (append table e)) = pd.to_sheet table /\
  body (pd.to_sheet (append table e))
    = body (pd.to_sheet table)
        ++ [pd.conform (columns table) (entry_row e)] /\
  body (pd.to_sheet (delete_most_recent table))
    = removelast (body (pd.to_sheet table)).
Proof.
  intros WF I.
  assert (C : columns (append table e) = columns table).
  { unfold append, pd.concat, new_data. cbn [columns].
    now rewrite (no_new_columns I), app_nil_r. }
  assert (B : map snd (rows (append table e))
              = map snd (rows table)
                  ++ [pd.conform (columns table) (entry_row e)]).
  { unfold append, pd.concat, new_data. cbn [columns rows].
    rewrite (no_new_columns I), app_nil_r, range_index_rows, map_app.
    now rewrite (conform_rows WF). }
  unfold delete_most_recent, pd.iloc_but_last, pd.to_sheet.
  cbn [columns rows body].
  split; [|split].
  - rewrite C, map_removelast, B, removelast_last. reflexivity.
  - exact B.
  - apply map_removelast.
Qed.

Lemma C4_witness :
  let table := pd.of_sheet Examples.window_sheet in
  (pd.wf table /\ incl entry_columns (columns table)) /\
  pd.to_sheet (delete_most_recent (@append Concrete.lib table Examples.an_entry))
    = pd.to_sheet table.
Proof.
  cbv zeta.
  assert (WF : pd.wf (pd.of_sheet Examples.window_sheet)).
  { split.
    - repeat constructor; simpl; intuition discriminate.
    - repeat constructor. }
  assert (I : incl entry_columns (columns (pd.of_sheet Examples.window_sheet))).
  { intros c H. exact H. }
  split; [split; assumption|].
  exact (proj1 (@C4_append_delete_round_trip Concrete.lib _
                  Examples.an_entry WF I)).
Defined.

(** C5 (the code breaks the claim).  The write paths do store the table as
    changed at read time, with "N/A" in the blank text cells, but a row
    that is blank in every column is not removed: lines 44-46 put "N/A" into
    it before line 49 looks for rows that are blank throughout, so the row
    is written back, after a delete and after an append alike. *)
Theorem C5_blank_row_survives_write :
  let run a :=
    @main Concrete.lib
       (Examples.visit (Some Examples.gap_sheet) FullHistory
                       Examples.today_8 a) in
  In Examples.blank_row (body Examples.gap_sheet) /\
  Examples.writes (fst (run Delete))
    = [Examples.log_sheet
         [Examples.log_row (Str "2024-01-01") 5 (Str "Run") 10 (80#1)
                           (Str "x");
          Examples.filled_blank_row]] /\
  (exists s, Examples.writes (fst (run (Submit Examples.an_entry))) = [s] /\
             nth_error (body s) 1 = Some Examples.filled_blank_row /\
             length (body s) = 4%nat).
Proof.
  cbv zeta. split; [|split].
  - right. left. reflexivity.
  - vm_compute. reflexivity.
  - eexists. split; [vm_compute; reflexivity|].
    split; reflexivity.
Qed.

(** C6 (the code breaks the claim).  Only the lifetime totals look for the
    column first ([get_sum], [get_count], [get_cardio_sessions] answer 0
    without it).  The period totals, the activity totals, the trend series
    and the banner index the column directly: without "Pullups" the run
    shows a lifetime total of 0 and then ends in KeyError at the period
    totals, and likewise without the other columns. *)
Theorem C6_missing_column_raises :
  let run col :=
    @main Concrete.lib
       (Examples.visit (Some (Examples.without col Examples.window_sheet))
                       FullHistory Examples.today_8 NoAction) in
  (In (Metric "Total Pullups" 0) (fst (run "Pullups")) /\
   snd (run "Pullups") = Raise (KeyError "Pullups")) /\
  snd (run "Squats") = Raise (KeyError "Squats") /\
  snd (run "Cardio Min/Reps") = Raise (KeyError "Cardio Min/Reps") /\
  snd (run "Cardio Type") = Raise (KeyError "Cardio Type") /\
  snd (run "Weight") = Raise (KeyError "Weight") /\
  snd (run "Waist_cm") = Raise (KeyError "Waist_cm") /\
  snd (run "Comments") = Raise (KeyError "Comments").
Proof.
  cbv zeta. split; [split|].
  - vm_compute. right. right. left. reflexivity.
  - vm_compute. reflexivity.
  - repeat split; vm_compute; reflexivity.
Qed.




(** C8, the claim as stated fails: the rows of a trend series come in sheet
    order, so with a later entry logged before an earlier one the points are
    not in ascending date order. *)
Lemma C8_counterexample :
  ~ StronglySorted by_day
      (rows (trend_series "Weight"
               (Examples.normalized Examples.backfilled_sheet))).
Proof.
  intros S. vm_compute in S.
  apply StronglySorted_inv in S. destruct S as [_ F].
  apply Forall_inv in F. vm_compute in F. apply F. reflexivity.
Qed.

(** C8 (amended).  For every filtered subset and each metric, the trend
    series contains exactly the subset's rows with metric value > 0 (so no
    point has value <= 0), in the order of the subset, which is sheet order:
    the points are in ascending date order whenever the subset's rows are. *)
Theorem C8_trend_series_positive_rows (metric : string)
        (subset : DataFrame) :
  (forall r, In r (rows (trend_series metric subset)) <->
             In r (rows subset) /\ gt0 (pd.get (snd r) metric) = true) /\
  (forall r, In r (rows (trend_series metric subset)) ->
             (0 < num (pd.get (snd r) metric))%Q) /\
  rows (trend_series metric subset)
    = filter (fun r => gt0 (pd.get (snd r) metric)) (rows subset) /\
  (StronglySorted by_day (rows subset) ->
   StronglySorted by_day (rows (trend_series metric subset))).
Proof.
  split; [|split; [|split]].
  - intros r. apply select_rows_In.
  - intros r H. apply select_rows_In in H. now apply gt0_positive.
  - reflexivity.
  - apply filter_sorted.
Qed.



(** C10.  In a session where the right password has not been typed, no run
    reads or writes the sheet or shows anything from it: every run stops at
    the password prompt. *)
Theorem C10_no_sheet_access_before_password (L : Library)
        (secret : option string) (its : list Interaction) :
  (forall it text, In it its -> typed it = Some text -> secret <> Some text) ->
  Forall (fun ev => touches_sheet ev = false)
         (session secret fresh_session its).
Proof.
  intros W. apply session_locked; [exact W | discriminate].
Qed.

Lemma C10_witness :
  (forall it text, In it Examples.locked_out -> typed it = Some text ->
                   Some "sparta" <> Some text) /\
  Forall (fun ev => touches_sheet ev = false)
         (@session Concrete.lib (Some "sparta") fresh_session
                   Examples.locked_out).
Proof.
  assert (W : forall it text, In it Examples.locked_out ->
                typed it = Some text -> Some "sparta" <> Some text).
  { intros it text [<- | [<- | [<- | []]]] E; simpl in E;
      try discriminate E.
    inversion E; subst. discriminate. }
  split; [exact W|].
  exact (@C10_no_sheet_access_before_password Concrete.lib _ _ W).
Defined.

(** * Further properties of the script *)

(** ** Events and outcomes of a sequence *)

Lemma bind_events {A B : Type} (m : M A) (k : A -> M B) :
  fst (bind m k)
  = fst m ++ match snd m with Ret a => fst (k a) | _ => [] end.
Proof.
  destruct m as [t [a|e|]]; simpl.
  - now destruct (k a).
  - now rewrite app_nil_r.
  - now rewrite app_nil_r.
Qed.

Lemma bind_outcome {A B : Type} (m : M A) (k : A -> M B) :
  snd (bind m k)
  = match snd m with
    | Ret a => snd (k a)
    | Raise e => Raise e
    | Rerun => Rerun
    end.
Proof.
  destruct m as [t [a|e|]]; simpl; [now destruct (k a) | reflexivity..].
Qed.

Lemma bind_ret {A B : Type} (a : A) (k : A -> M B) : bind (ret a) k = k a.
Proof. unfold bind, ret. now destruct (k a). Qed.

Lemma bind_all {A B : Type} (P : Event -> Prop) (m : M A) (k : A -> M B) :
  Forall P (fst m) ->
  (forall a, Forall P (fst (k a))) ->
  Forall P (fst (bind m k)).
Proof.
  intros Hm Hk. rewrite bind_events. apply Forall_app. split; [exact Hm|].
  destruct (snd m); [apply Hk | constructor..].
Qed.

Lemma getcol_all (P : Event -> Prop) (df : DataFrame) (col : string) :
  Forall P (fst (getcol df col)).
Proof. unfold getcol. destruct (pd.has_column df col); constructor. Qed.

Lemma var_all {A : Type} (P : Event -> Prop) (name : string) (v : option A) :
  Forall P (fst (var name v)).
Proof. destruct v; constructor. Qed.

(** ** Charts *)

Lemma trend_tab_sound (metric : string) (subset : DataFrame) :
  Forall sound_chart (fst (trend_tab metric subset)).
Proof.
  unfold trend_tab. apply bind_all; [apply getcol_all|]. intros _.
  destruct (pd.empty (trend_series metric subset)) eqn:E; cbn [negb];
    [constructor|].
  constructor; [|constructor]. cbn [sound_chart]. split.
  - intros R. unfold pd.empty in E. rewrite R in E.
    now destruct (columns (trend_series metric subset)).
  - apply Forall_forall. intros r H.
    now apply select_rows_In in H.
Qed.

(** X1.  Whatever subset the trend section gets, every chart it draws has at
    least one row and only rows whose value is above zero: no empty chart
    and no zero sentinel is ever plotted. *)
Theorem X1_charts_are_sound (subset : DataFrame) :
  Forall sound_chart (fst (progress_trends subset)).
Proof.
  unfold progress_trends. destruct (negb (pd.empty subset)); [|constructor].
  repeat (apply bind_all; [apply trend_tab_sound | intros _]).
  apply trend_tab_sound.
Qed.

(** ** The gate opens *)

Section Open.

Context {L : Library}.

Lemma load_reads (src : option Sheet) :
  exists t df_raw,
    load src = (SheetRead :: t, Ret df_raw) /\
    Forall (fun ev => is_write ev = false) t.
Proof.
  unfold load. destruct src as [s|].
  - exists [], (pd.dropna_all (pd.strip_columns (fix_types (pd.of_sheet s)))).
    split; [reflexivity | constructor].
  - exists [LoadError], pd.empty_frame.
    split; [reflexivity | repeat constructor].
Qed.

Lemma main_reads_first (inp : Inputs) :
  exists t, fst (main inp) = SheetRead :: t.
Proof.
  destruct (load_reads (sheet inp)) as [t [df_raw [E _]]].
  unfold main. rewrite bind_events, E. cbn [fst snd app].
  eexists. reflexivity.
Qed.

Lemma run_open (ss : SessionState) (inp : Inputs) :
  password_correct ss = Some true -> run ss inp = main inp.
Proof.
  intros H. unfold run, check_password. rewrite H.
  unfold bind, ret. now destruct (main inp).
Qed.

End Open.

(** X2.  After the callback has run on a typed text, the next run opens the
    dashboard exactly when the text is the configured password: then the
    typed text is removed from the session state and the run is the
    dashboard's, which starts by reading the sheet; otherwise (wrong text, or
    no "auth" secret) the text stays in the state and the run shows the
    "incorrect" prompt and nothing else. *)
Theorem X2_gate_opens_on_password (L : Library) (secret : option string)
        (text : string) (ss : SessionState) (inp : Inputs) :
  let ss' := password_entered secret text ss in
  (secret = Some text /\
   password ss' = None /\
   run ss' inp = main inp /\
   exists t, fst (run ss' inp) = SheetRead :: t) \/
  (secret <> Some text /\
   password ss' = Some text /\
   run ss' inp = ([PasswordPrompt true], Ret tt)).
Proof.
  cbv zeta. unfold password_entered. destruct secret as [pw|].
  - destruct (String.eqb_spec text pw) as [->|N].
    + left. split; [reflexivity|]. split; [reflexivity|].
      assert (R : forall s, run {| password_correct := Some true;
                                   password := s |} inp = main inp)
        by (intros; now apply run_open).
      rewrite R. split; [reflexivity | apply main_reads_first].
    + right. split; [congruence|]. split; reflexivity.
  - right. split; [discriminate|]. split; reflexivity.
Qed.

(** ** What a run writes *)

Ltac quiet :=
  repeat first
    [ apply Forall_nil
    | apply getcol_all
    | apply var_all
    | apply bind_all; [|intros]
    | apply Forall_cons; [reflexivity|]
    | match goal with
      | |- Forall _ (fst (if ?b then _ else _)) => destruct b
      | |- Forall _ (fst (match ?x with _ => _ end)) => destruct x
      end ].

Section Writes.

Context {L : Library}.

Lemma normalize_quiet (df_raw : DataFrame) :
  Forall no_write (fst (normalize df_raw)).
Proof. unfold normalize. quiet. Qed.

Lemma latest_entry_quiet (df : DataFrame) :
  Forall no_write (fst (latest_entry df)).
Proof.
  unfold latest_entry.
  destruct (rows (sort_values_desc ts_key df)); constructor.
Qed.

Lemma banner_quiet (r : Row) : Forall no_write (fst (banner r)).
Proof.
  unfold banner, getitem.
  destruct (pd.has r "Date_Only"); [|constructor].
  destruct (pd.has r "Comments"); [|constructor].
  rewrite !bind_ret. quiet.
Qed.

Lemma lifetime_totals_quiet (df : DataFrame) :
  Forall no_write (fst (lifetime_totals df)).
Proof. unfold lifetime_totals. quiet. Qed.

Lemma filtering_quiet (inp : Inputs) (df : DataFrame) :
  Forall no_write (fst (filtering inp df)).
Proof.
  unfold filtering, cardio_options, filter_by_relative_window, global.
  quiet.
Qed.

Lemma progress_trends_quiet (subset : DataFrame) :
  Forall no_write (fst (progress_trends subset)).
Proof. unfold progress_trends, trend_tab. quiet. Qed.

Lemma wrote_bind {A : Type} (s : Sheet) (msg : string) (m : M A)
      (k : A -> M unit) :
  Forall no_write (fst m) ->
  (forall a, snd m = Ret a ->
             Forall no_write (fst (k a)) \/ wrote s msg (k a)) ->
  Forall no_write (fst (bind m k)) \/ wrote s msg (bind m k).
Proof.
  intros Hm Hk. unfold wrote. rewrite bind_events, bind_outcome.
  destruct (snd m) as [a|e|].
  - destruct (Hk a eq_refl) as [Q | [pre [Q [E R]]]].
    + left. apply Forall_app. now split.
    + right. exists (fst m ++ pre). split; [apply Forall_app; now split|].
      split; [|exact R]. now rewrite E, app_assoc.
  - left. rewrite app_nil_r. exact Hm.
  - left. rewrite app_nil_r. exact Hm.
Qed.

Lemma quiet_bind {A : Type} (m : M A) (k : A -> M unit) :
  Forall no_write (fst m) ->
  (forall a, snd m = Ret a -> Forall no_write (fst (k a)) \/ False) ->
  Forall no_write (fst (bind m k)) \/ False.
Proof.
  intros Hm Hk. left. rewrite bind_events. apply Forall_app.
  split; [exact Hm|].
  destruct (snd m) as [a|e|]; [|constructor..].
  now destruct (Hk a eq_refl).
Qed.

(** The run up to section 7 writes nothing; what the run writes is what
    section 7 writes. *)
Lemma main_steps (W : M unit -> Prop) (inp : Inputs) (df_raw : DataFrame) :
  (forall A (m : M A) (k : A -> M unit),
     Forall no_write (fst m) ->
     (forall a, snd m = Ret a -> Forall no_write (fst (k a)) \/ W (k a)) ->
     Forall no_write (fst (bind m k)) \/ W (bind m k)) ->
  snd (load (sheet inp)) = Ret df_raw ->
  (forall k : unit -> M unit,
     (forall u, Forall no_write (fst (k u))) ->
     Forall no_write (fst (bind (data_management df_raw (action inp)) k))
     \/ W (bind (data_management df_raw (action inp)) k)) ->
  Forall no_write (fst (main inp)) \/ W (main inp).
Proof.
  intros HW Hl Hdm. unfold main.
  apply HW.
  { destruct (load_reads (sheet inp)) as [t [d [E Q]]]. rewrite E.
    constructor; [reflexivity | exact Q]. }
  intros d Hd. rewrite Hl in Hd. inversion Hd; subst d; clear Hd.
  apply HW.
  { destruct (negb (pd.empty df_raw)); [|constructor].
    apply bind_all; [apply normalize_quiet|]. intros df.
    apply bind_all; [apply latest_entry_quiet|]. intros latest.
    apply bind_all; [apply banner_quiet|]. intros _.
    apply bind_all; [apply lifetime_totals_quiet|]. intros _.
    constructor. }
  intros df _. apply HW.
  { destruct (negb (pd.empty df_raw)); [|constructor].
    apply bind_all; [apply var_all|]. intros df'.
    apply bind_all; [apply filtering_quiet|]. intros views.
    constructor. }
  intros views _. apply HW; [apply var_all|]. intros chart _.
  apply HW; [apply progress_trends_quiet|]. intros _ _.
  apply Hdm. intros _. quiet.
Qed.

End Writes.

(** X3.  A run writes the sheet at most once, as its last act, and only on a
    button: with no button pressed nothing is written; a submit either
    writes nothing (the run stopped before section 7) or writes the table as
    read with the entry appended, confirms and restarts; a delete either
    writes nothing or writes the table as read, which then is not empty,
    without its last row, confirms and restarts. *)
Theorem X3_run_writes_at_most_once (L : Library) (inp : Inputs) :
  exists df_raw,
    snd (load (sheet inp)) = Ret df_raw /\
    match action inp with
    | NoAction => Forall no_write (fst (main inp))
    | Submit e =>
        Forall no_write (fst (main inp)) \/
        wrote (pd.to_sheet (append df_raw e)) "Log added successfully!"
              (main inp)
    | Delete =>
        Forall no_write (fst (main inp)) \/
        (pd.empty df_raw = false /\
         wrote (pd.to_sheet (delete_most_recent df_raw)) "Last entry deleted."
               (main inp))
    end.
Proof.
  destruct (load_reads (sheet inp)) as [t [df_raw [E _]]].
  assert (Hl : snd (load (sheet inp)) = Ret df_raw) by now rewrite E.
  exists df_raw. split; [exact Hl|].
  destruct (action inp) as [|e|] eqn:Ha.
  - assert (H : Forall no_write (fst (main inp)) \/ False).
    { apply (@main_steps L (fun _ => False) inp df_raw (@quiet_bind) Hl).
      intros k Hk. left. rewrite Ha. cbn [data_management].
      rewrite bind_ret. apply Hk. }
    destruct H as [Q|[]]. exact Q.
  - apply (@main_steps L _ inp df_raw (fun A => @wrote_bind A _ _) Hl).
    intros k Hk. right. rewrite Ha. exists []. split; [constructor | split; reflexivity].
  - destruct (pd.empty df_raw) eqn:Em.
    + left.
      assert (H : Forall no_write (fst (main inp)) \/ False).
      { apply (@main_steps L (fun _ => False) inp df_raw (@quiet_bind) Hl).
        intros k Hk. left. rewrite Ha. cbn [data_management]. rewrite Em.
        cbn [negb]. rewrite bind_ret. apply Hk. }
      destruct H as [Q|[]]. exact Q.
    + assert (H : Forall no_write (fst (main inp)) \/
                  wrote (pd.to_sheet (delete_most_recent df_raw))
                        "Last entry deleted." (main inp)).
      { apply (@main_steps L _ inp df_raw (fun A => @wrote_bind A _ _) Hl).
        intros k Hk. right. rewrite Ha. cbn [data_management]. rewrite Em.
        exists []. split; [constructor | split; reflexivity]. }
      destruct H as [Q|Wr]; [now left | right; now split].
Qed.

Lemma failed_read_loads_empty (L : Library) (v : View) (a : Action) :
  snd (load (sheet (Examples.visit None v Examples.today_8 a)))
  = Ret pd.empty_frame.
Proof. reflexivity. Qed.

(** X4.  When the table as read is empty (the read failed, the sheet has no
    row, or every row was dropped), the run reads, writes nothing whatever
    button was pressed, and ends in NameError on [chart_df]: the form cannot
    add a first entry to an empty sheet. *)
Theorem X4_empty_table_never_written (L : Library) (inp : Inputs)
        (df_raw : DataFrame) :
  snd (load (sheet inp)) = Ret df_raw ->
  pd.empty df_raw = true ->
  Forall no_write (fst (main inp)) /\
  snd (main inp) = Raise (NameError "chart_df").
Proof.
  intros Hl Em. destruct (load_reads (sheet inp)) as [t [d [E Q]]].
  rewrite E in Hl. inversion Hl; subst d.
  rewrite (@main_empty L inp _ _ E Em). split; [|reflexivity].
  constructor; [reflexivity | exact Q].
Qed.

Lemma X4_witness :
  let inp := Examples.visit None FullHistory Examples.today_8
                            (Submit Examples.an_entry) in
  (snd (@load Concrete.lib (sheet inp)) = Ret pd.empty_frame /\
   pd.empty pd.empty_frame = true) /\
  Forall no_write (fst (@main Concrete.lib inp)).
Proof.
  cbv zeta. split; [split; reflexivity|].
  exact (proj1 (@X4_empty_table_never_written Concrete.lib _ _
                  (failed_read_loads_empty Concrete.lib FullHistory
                     (Submit Examples.an_entry))
                  eq_refl)).
Defined.

(** ** What normalisation does to a row *)

Lemma mem_add_column (c x : string) (cols : list string) :
  Py.mem c cols = true -> Py.mem c (pd.add_column cols x) = true.
Proof.
  intros H. unfold pd.add_column. destruct (Py.mem x cols); [exact H|].
  apply mem_In. apply in_or_app. left. now apply mem_In.
Qed.

Lemma add_column_present (x : string) (cols : list string) :
  Py.mem x cols = true -> pd.add_column cols x = cols.
Proof. intros H. unfold pd.add_column. now rewrite H. Qed.

Lemma coerce_columns_columns (cols : list string) (f : Cell -> Cell)
      (df : DataFrame) :
  columns (coerce_columns cols f df) = columns df.
Proof.
  unfold coerce_columns. revert df.
  induction cols as [|col cols IH]; intros df; cbn [fold_left].
  - reflexivity.
  - rewrite IH. destruct (pd.has_column df col) eqn:H; [|reflexivity].
    unfold pd.assign_map, pd.assign_from. cbn [columns].
    now apply add_column_present.
Qed.

(** A coercion of distinct columns coerces each cell of those the header
    names, from that cell alone, and leaves the other cells. *)
Lemma coerce_columns_cells (cols : list string) (f : Cell -> Cell)
      (df : DataFrame) :
  NoDup cols ->
  exists g : Row -> Row,
    rows (coerce_columns cols f df)
    = map (fun r => (fst r, g (snd r))) (rows df) /\
    (forall c r, ~ In c cols -> pd.get (g r) c = pd.get r c) /\
    (forall c r, In c cols -> pd.has_column df c = true ->
                 pd.get (g r) c = f (pd.get r c)).
Proof.
  revert df. induction cols as [|col cols IH]; intros df ND.
  - exists (fun r => r). split; [|split].
    + simpl. rewrite <- (map_id (rows df)) at 1. apply map_ext.
      now intros [i r].
    + reflexivity.
    + intros c r [].
  - apply NoDup_cons_iff in ND. destruct ND as [Nc ND].
    unfold coerce_columns in *. cbn [fold_left].
    destruct (pd.has_column df col) eqn:Hc.
    + destruct (IH (pd.assign_map col f df) ND) as [g [Hg [Ho Ha]]].
      exists (fun r => g (pd.set col (f (pd.get r col)) r)).
      split; [|split].
      * rewrite Hg. unfold pd.assign_map, pd.assign_from. cbn [rows].
        rewrite map_map. reflexivity.
      * intros c r N. rewrite Ho by (intros H; apply N; now right).
        apply get_set_other. intros E. apply N. now left.
      * intros c r [E|I] H.
        { subst c. rewrite Ho by exact Nc. apply get_set_same. }
        { assert (col <> c) by (intros E; subst c; contradiction).
          rewrite Ha; [now rewrite get_set_other | exact I |].
          unfold pd.has_column, pd.assign_map, pd.assign_from.
          cbn [columns]. now apply mem_add_column. }
    + destruct (IH df ND) as [g [Hg [Ho Ha]]]. exists g.
      split; [exact Hg|]. split.
      * intros c r N. apply Ho. intros H. apply N. now right.
      * intros c r [E|I] H; [congruence | now apply Ha].
Qed.

Lemma assign_rows_nth (col : string) (rs : list (nat * Row))
      (vals : list Cell) (k i : nat) (r0 : Row) :
  nth_error rs k = Some (i, r0) ->
  In (i, pd.set col (nth k vals NaN) r0) (pd.assign_rows col rs vals).
Proof.
  revert k vals. induction rs as [|[j r1] rs IH]; intros k vals H.
  - now destruct k.
  - destruct k as [|k]; simpl in H.
    + inversion H; subst. left. now destruct vals.
    + right. specialize (IH k (tl vals) H).
      now destruct vals; [destruct k|].
Qed.

Lemma num_cols_nodup : NoDup num_cols.
Proof. repeat constructor; simpl; intuition discriminate. Qed.

Lemma bool_cols_nodup : NoDup bool_cols.
Proof. repeat constructor; simpl; intuition discriminate. Qed.

Lemma num_not_bool (c : string) : In c num_cols -> ~ In c bool_cols.
Proof. simpl. intuition (subst; discriminate). Qed.

Lemma coerced_not_date (c : string) :
  In c (num_cols ++ bool_cols) -> c <> "Date" /\ c <> "Date_Only".
Proof. simpl. intuition (subst; discriminate). Qed.

Lemma coerce_numeric_number (L : Library) (c : Cell) :
  is_number (coerce_numeric c) = true.
Proof. destruct c; simpl; try reflexivity. now destruct (to_numeric s). Qed.

Section Cells.

Context {L : Library}.

Lemma parse_dates_shape (df_raw : DataFrame) (dates : list Cell)
      (i : nat) (r : Row) :
  In (i, r) (rows (parse_dates df_raw dates)) ->
  exists k r0 v1 v2,
    nth_error (rows df_raw) k = Some (i, r0) /\
    r = pd.set "Date_Only" v2 (pd.set "Date" v1 r0).
Proof.
  unfold parse_dates. cbn [rows pd.assign_from pd.dropna_subset pd.select
                            pd.assign_values]. intros H.
  apply in_map_iff in H. destruct H as [[j r2] [E H]].
  cbn [fst snd] in E. inversion E; subst; clear E.
  apply filter_In in H. destruct H as [H _].
  apply assign_rows_In in H. destruct H as [k [r0 [Hk Hr]]].
  exists k, r0. eexists. eexists. split; [exact Hk|].
  rewrite Hr. reflexivity.
Qed.

Lemma parse_dates_columns (df_raw : DataFrame) (dates : list Cell) :
  columns (parse_dates df_raw dates)
  = pd.add_column (pd.add_column (columns df_raw) "Date") "Date_Only".
Proof. reflexivity. Qed.

Lemma normalize_cells (df_raw df : DataFrame) (i : nat) (r : Row) :
  snd (normalize df_raw) = Ret df ->
  In (i, r) (rows df) ->
  exists k r0,
    nth_error (rows df_raw) k = Some (i, r0) /\
    (forall c, In c num_cols -> pd.has_column df_raw c = true ->
               pd.get r c = coerce_numeric (pd.get r0 c)) /\
    (forall c, In c bool_cols -> pd.has_column df_raw c = true ->
               pd.get r c = coerce_bool (pd.get r0 c)) /\
    (forall c, ~ In c normalized_cols -> pd.get r c = pd.get r0 c).
Proof.
  intros Hn Hin. apply normalize_ret in Hn. destruct Hn as [_ ->].
  set (df1 := parse_dates df_raw (pd.series df_raw "Date")) in *.
  destruct (coerce_columns_cells coerce_bool
              (coerce_columns num_cols coerce_numeric df1) bool_cols_nodup)
    as [gb [Hb [Bo Ba]]].
  destruct (coerce_columns_cells coerce_numeric df1 num_cols_nodup)
    as [gn [Hg [No Na]]].
  rewrite Hb, Hg, map_map in Hin. cbn [fst snd] in Hin.
  apply in_map_iff in Hin. destruct Hin as [[j r1] [E Hin]].
  cbn [fst snd] in E. inversion E; subst; clear E.
  apply parse_dates_shape in Hin.
  destruct Hin as [k [r0 [v1 [v2 [Hk ->]]]]].
  assert (Keep : forall c, c <> "Date" -> c <> "Date_Only" ->
            pd.get (pd.set "Date_Only" v2 (pd.set "Date" v1 r0)) c
            = pd.get r0 c).
  { intros c N1 N2. rewrite !get_set_other by congruence. reflexivity. }
  assert (Has : forall c, pd.has_column df_raw c = true ->
                          pd.has_column df1 c = true).
  { intros c H. unfold pd.has_column, df1. rewrite parse_dates_columns.
    now apply mem_add_column, mem_add_column. }
  exists k, r0. split; [exact Hk|]. split; [|split].
  - intros c Hc Hh.
    destruct (@coerced_not_date c) as [N1 N2];
      [apply in_or_app; now left|].
    rewrite Bo by now apply num_not_bool.
    rewrite Na by auto. now rewrite Keep.
  - intros c Hc Hh.
    destruct (@coerced_not_date c) as [N1 N2];
      [apply in_or_app; now right|].
    rewrite Ba; [| exact Hc |].
    + rewrite No by (intros F; now apply (num_not_bool F)).
      now rewrite Keep.
    + unfold pd.has_column. rewrite coerce_columns_columns. now apply Has.
  - intros c N. unfold normalized_cols in N.
    assert (N1 : c <> "Date") by (intros ->; apply N; now left).
    assert (N2 : c <> "Date_Only") by (intros ->; apply N; right; now left).
    assert (N3 : ~ In c (num_cols ++ bool_cols))
      by (intros F; apply N; right; now right).
    rewrite Bo by (intros F; apply N3, in_or_app; now right).
    rewrite No by (intros F; apply N3, in_or_app; now left).
    now apply Keep.
Qed.

End Cells.

(** X5.  Normalisation works cell by cell.  A retained row comes from one
    raw row; each numeric column the header names holds the number coerced
    from that row's own cell (never a blank or a text), each checkbox column
    the boolean coerced from its own cell, and every column other than the
    dates, the numeric and the checkbox columns is left as it was read: a bad
    cell never spoils another cell or the row. *)
Theorem X5_normalize_cell_by_cell (L : Library) (df_raw df : DataFrame)
        (i : nat) (r : Row) :
  snd (normalize df_raw) = Ret df ->
  In (i, r) (rows df) ->
  exists k r0,
    nth_error (rows df_raw) k = Some (i, r0) /\
    (forall c, In c num_cols -> pd.has_column df_raw c = true ->
               pd.get r c = coerce_numeric (pd.get r0 c) /\
               is_number (pd.get r c) = true) /\
    (forall c, In c bool_cols -> pd.has_column df_raw c = true ->
               pd.get r c = coerce_bool (pd.get r0 c) /\
               is_bool (pd.get r c) = true) /\
    (forall c, ~ In c normalized_cols -> pd.get r c = pd.get r0 c).
Proof.
  intros Hn Hin.
  destruct (@normalize_cells L df_raw df i r Hn Hin) as [k [r0 [Hk [Hnum [Hb Ho]]]]].
  exists k, r0. split; [exact Hk|]. split; [|split].
  - intros c Hc Hh. rewrite (Hnum c Hc Hh).
    split; [reflexivity | apply coerce_numeric_number].
  - intros c Hc Hh. rewrite (Hb c Hc Hh). split; reflexivity.
  - exact Ho.
Qed.

Lemma X5_witness :
  let df_raw := Examples.loaded (Examples.scenario_sheet NaN) in
  let df := Examples.normalized (Examples.scenario_sheet NaN) in
  let r := snd (nth 1 (rows df) (0%nat, [])) in
  (snd (@normalize Concrete.lib df_raw) = Ret df /\ In (2%nat, r) (rows df))
  /\ exists k r0,
       nth_error (rows df_raw) k = Some (2%nat, r0) /\
       pd.get r "Cardio Type" = pd.get r0 "Cardio Type".
Proof.
  cbv zeta.
  assert (Hn : snd (@normalize Concrete.lib
                      (Examples.loaded (Examples.scenario_sheet NaN)))
               = Ret (Examples.normalized (Examples.scenario_sheet NaN)))
    by (vm_compute; reflexivity).
  assert (Hin : In (2%nat,
                    snd (nth 1 (rows (Examples.normalized
                                        (Examples.scenario_sheet NaN)))
                             (0%nat, [])))
                   (rows (Examples.normalized (Examples.scenario_sheet NaN))))
    by (vm_compute; right; left; reflexivity).
  split; [split; assumption|].
  destruct (@X5_normalize_cell_by_cell Concrete.lib _ _ _ _ Hn Hin)
    as [k [r0 [Hk [_ [_ Ho]]]]].
  exists k, r0. split; [exact Hk|].
  apply Ho. vm_compute. intuition discriminate.
Defined.

Lemma assign_rows_length (col : string) (rs : list (nat * Row))
      (vals : list Cell) :
  length (pd.assign_rows col rs vals) = length rs.
Proof.
  revert vals. induction rs as [|r rs IH]; intros vals; simpl.
  - reflexivity.
  - now rewrite IH.
Qed.

Lemma filter_length_bound {A : Type} (p : A -> bool) (l : list A) :
  (length (filter p l) <= length l)%nat.
Proof.
  induction l as [|a l IH]; simpl; [lia|].
  destruct (p a); simpl; lia.
Qed.

Lemma coerce_columns_labels (cols : list string) (f : Cell -> Cell)
      (df : DataFrame) :
  map fst (rows (coerce_columns cols f df)) = map fst (rows df).
Proof.
  destruct (coerce_columns_rows cols f df) as [g [Hg _]].
  rewrite Hg, map_map. reflexivity.
Qed.

(** X6.  Normalisation needs the "Date" column and nothing else: when it
    answers, the header is the raw header with "Date_Only" added (no column
    is lost), every raw row whose date the library parsed is retained
    whatever its other cells hold, and no row is added. *)
Theorem X6_normalize_keeps_dated_rows (L : Library) (df_raw df : DataFrame) :
  snd (normalize df_raw) = Ret df ->
  pd.has_column df_raw "Date" = true /\
  columns df = pd.add_column (columns df_raw) "Date_Only" /\
  (forall k i r0 t,
     nth_error (rows df_raw) k = Some (i, r0) ->
     nth k (to_datetime
              (map (fun c => Py.strip (str c)) (pd.series df_raw "Date")))
         None = Some t ->
     In i (pd.labels df)) /\
  (pd.len df <= pd.len df_raw)%nat.
Proof.
  intros Hn. apply normalize_ret in Hn. destruct Hn as [Hd ->].
  split; [exact Hd|]. split; [|split].
  - rewrite !coerce_columns_columns, parse_dates_columns.
    now rewrite (add_column_present _ _ Hd).
  - intros k i r0 t Hk Hp. unfold pd.labels.
    rewrite !coerce_columns_labels. unfold parse_dates.
    cbn [rows pd.assign_from pd.dropna_subset pd.select pd.assign_values].
    rewrite map_map. cbn [fst].
    apply in_map_iff.
    exists (i, pd.set "Date"
                 (nth k (map timestamp_cell
                           (to_datetime
                              (map (fun c => Py.strip (str c))
                                   (pd.series df_raw "Date")))) NaN) r0).
    split; [reflexivity|]. apply filter_In. split.
    + now apply assign_rows_nth.
    + cbn [snd]. rewrite get_set_same.
      change NaN with (timestamp_cell None). rewrite map_nth, Hp.
      reflexivity.
  - unfold pd.len. rewrite <- (length_map fst), coerce_columns_labels.
    rewrite coerce_columns_labels, length_map. unfold parse_dates.
    cbn [rows pd.assign_from pd.dropna_subset pd.select pd.assign_values].
    rewrite length_map.
    eapply Nat.le_trans; [apply filter_length_bound|].
    now rewrite assign_rows_length.
Qed.

Lemma X6_witness :
  let df_raw := Examples.loaded (Examples.scenario_sheet NaN) in
  let df := Examples.normalized (Examples.scenario_sheet NaN) in
  snd (@normalize Concrete.lib df_raw) = Ret df /\
  columns df = pd.add_column (columns df_raw) "Date_Only".
Proof.
  cbv zeta.
  assert (Hn : snd (@normalize Concrete.lib
                      (Examples.loaded (Examples.scenario_sheet NaN)))
               = Ret (Examples.normalized (Examples.scenario_sheet NaN)))
    by (vm_compute; reflexivity).
  split; [exact Hn|].
  exact (proj1 (proj2 (@X6_normalize_keeps_dated_rows Concrete.lib _ _ Hn))).
Defined.

(** ** The date range *)

Lemma fold_min_le (l : list Z) (a : Z) :
  fold_left Z.min l a <= a /\ forall x, In x l -> fold_left Z.min l a <= x.
Proof.
  revert a. induction l as [|y l IH]; intros a; simpl.
  - split; [lia | contradiction].
  - destruct (IH (Z.min a y)) as [Ha Hx]. split; [lia|].
    intros x [->|H]; [lia | now apply Hx].
Qed.

Lemma fold_max_ge (l : list Z) (a : Z) :
  a <= fold_left Z.max l a /\ forall x, In x l -> x <= fold_left Z.max l a.
Proof.
  revert a. induction l as [|y l IH]; intros a; simpl.
  - split; [lia | contradiction].
  - destruct (IH (Z.max a y)) as [Ha Hx]. split; [lia|].
    intros x [->|H]; [lia | now apply Hx].
Qed.

Lemma min_day_le (l : list Z) (x : Z) : In x l -> min_day l <= x.
Proof.
  destruct l as [|d l]; [contradiction|]. simpl.
  destruct (fold_min_le l d) as [Ha Hx].
  intros [->|H]; [exact Ha | now apply Hx].
Qed.

Lemma max_day_ge (l : list Z) (x : Z) : In x l -> x <= max_day l.
Proof.
  destruct l as [|d l]; [contradiction|]. simpl.
  destruct (fold_max_ge l d) as [Ha Hx].
  intros [->|H]; [exact Ha | now apply Hx].
Qed.

Lemma filter_all {A : Type} (p : A -> bool) (l : list A) :
  (forall x, In x l -> p x = true) -> filter p l = l.
Proof.
  induction l as [|a l IH]; intros H; simpl; [reflexivity|].
  rewrite (H a) by now left. f_equal. apply IH. intros x Hx. apply H.
  now right.
Qed.

(** X7.  On a normalized table the range filter keeps exactly the rows whose
    day lies between the two bounds, both included; with bounds that reach
    the earliest and the latest day of the table (the slider left as it
    is) it keeps the table as it is, so the period totals are then taken
    over all rows. *)
Theorem X7_date_range_filter (L : Library) (df_raw df : DataFrame) :
  snd (normalize df_raw) = Ret df ->
  let days := map (fun r => day_key (snd r)) (rows df) in
  (forall lo hi r,
     In r (rows (filter_by_date_range lo hi df)) <->
     In r (rows df) /\ lo <= day_key (snd r) <= hi) /\
  (forall lo hi,
     lo <= min_day days -> max_day days <= hi ->
     filter_by_date_range lo hi df = df).
Proof.
  intros Hn days.
  assert (D : forall r, In r (rows df) ->
                pd.get (snd r) "Date_Only" = Day (day_key (snd r))).
  { intros [i r] H.
    destruct (@normalize_rows L df_raw df i r Hn H)
      as [k [r0 [t [_ [_ [_ E]]]]]].
    cbn [snd]. unfold day_key. now rewrite E. }
  assert (C : forall lo hi r, In r (rows df) ->
     (day_ge lo (pd.get (snd r) "Date_Only")
      && day_le hi (pd.get (snd r) "Date_Only") = true
      <-> lo <= day_key (snd r) <= hi)).
  { intros lo hi r H. rewrite (D r H). cbn [day_ge day_le].
    rewrite andb_true_iff, !Z.leb_le. tauto. }
  split.
  - intros lo hi r. unfold filter_by_date_range.
    rewrite select_rows_In. split.
    + intros [H B]. split; [exact H|]. now apply (C lo hi r H).
    + intros [H B]. split; [exact H|]. now apply (C lo hi r H).
  - intros lo hi Hlo Hhi. unfold filter_by_date_range, pd.select.
    rewrite filter_all; [now destruct df|].
    intros r H. apply (C lo hi r H).
    assert (In (day_key (snd r)) days) by (apply in_map_iff; eauto).
    pose proof (min_day_le days _ H0). pose proof (max_day_ge days _ H0).
    lia.
Qed.

Lemma X7_witness :
  let df_raw := Examples.loaded Examples.window_sheet in
  let df := Examples.normalized Examples.window_sheet in
  snd (@normalize Concrete.lib df_raw) = Ret df /\
  filter_by_date_range 19358 20089 df = df.
Proof.
  cbv zeta.
  assert (Hn : snd (@normalize Concrete.lib
                      (Examples.loaded Examples.window_sheet))
               = Ret (Examples.normalized Examples.window_sheet))
    by (vm_compute; reflexivity).
  split; [exact Hn|].
  apply (proj2 (@X7_date_range_filter Concrete.lib _ _ Hn)).
  - vm_compute. discriminate.
  - vm_compute. discriminate.
Defined.

(** ** Cardio types *)

Lemma insert_sorted_perm (s : string) (l : list string) :
  Permutation (s :: l) (insert_sorted s l).
Proof.
  induction l as [|x l IH]; simpl.
  - reflexivity.
  - destruct (String.leb s x); [reflexivity|].
    rewrite perm_swap. now apply perm_skip.
Qed.

Lemma sorted_perm (l : list string) : Permutation l (sorted l).
Proof.
  induction l as [|x l IH]; simpl.
  - reflexivity.
  - rewrite <- insert_sorted_perm. now apply perm_skip.
Qed.

Lemma insert_sorted_Sorted (s : string) (l : list string) :
  Sorted leb_true l -> Sorted leb_true (insert_sorted s l).
Proof.
  induction l as [|x l IH]; simpl; intros S.
  - repeat constructor.
  - destruct (String.leb s x) eqn:E.
    + constructor; [exact S|]. now constructor.
    + apply Sorted_inv in S. destruct S as [S H].
      constructor; [now apply IH|].
      assert (X : leb_true x s).
      { unfold leb_true. destruct (String.leb_total s x); congruence. }
      destruct l as [|y l]; simpl.
      * now constructor.
      * destruct (String.leb s y); constructor; [exact X|].
        now apply HdRel_inv in H.
Qed.

Lemma sorted_Sorted (l : list string) : Sorted leb_true (sorted l).
Proof.
  induction l as [|x l IH]; simpl.
  - constructor.
  - now apply insert_sorted_Sorted.
Qed.

Lemma unique_In (l : list string) (x : string) :
  In x (unique l) <-> In x l.
Proof.
  induction l as [|y l IH]; simpl; [tauto|].
  rewrite filter_In, IH. split.
  - intros [->|[H _]]; auto.
  - intros [->|H]; [now left|].
    destruct (String.eqb_spec y x) as [->|N]; [now left|].
    right. split; [exact H|]. reflexivity.
Qed.

Lemma unique_NoDup (l : list string) : NoDup (unique l).
Proof.
  induction l as [|y l IH]; simpl; constructor.
  - rewrite filter_In. intros [_ H]. now rewrite String.eqb_refl in H.
  - now apply NoDup_filter.
Qed.

Lemma texts_In (l : list Cell) (x : string) :
  In x (texts l) <-> In (Str x) l.
Proof.
  unfold texts. rewrite in_flat_map. split.
  - intros [c [H I]]. destruct c; simpl in I; try contradiction.
    destruct I as [->|[]]. exact H.
  - intros H. exists (Str x). split; [exact H | now left].
Qed.

(** X8.  The cardio types offered for drilling, when the column holds text:
    "All" comes first; after it come, each once and in ascending order, the
    types that occur in the table, without the four texts that mean no type
    ("N/A", "0", "0.0", "None").  Without the column the options cannot be
    built (KeyError). *)
Theorem X8_cardio_options (df : DataFrame) :
  (pd.has_column df "Cardio Type" = false ->
   cardio_options df = raise (KeyError "Cardio Type")) /\
  (forall options,
     snd (cardio_options df) = Ret options ->
     exists rest,
       options = "All" :: rest /\
       NoDup rest /\
       Sorted leb_true rest /\
       forall x, In x rest <->
                 In (Str x) (pd.series df "Cardio Type") /\
                 ~ In x not_a_type).
Proof.
  unfold cardio_options, getcol. split.
  - intros ->. reflexivity.
  - intros options.
    destruct (pd.has_column df "Cardio Type"); [|discriminate].
    rewrite bind_ret.
    destruct (forallb is_text (pd.series df "Cardio Type")); [|discriminate].
    cbn [snd ret]. intros H. inversion H; subst; clear H.
    eexists. split; [reflexivity|]. split; [|split].
    + eapply Permutation_NoDup; [apply sorted_perm|].
      apply NoDup_filter, unique_NoDup.
    + apply sorted_Sorted.
    + intros x. split.
      * intros H.
        apply (Permutation_in _ (Permutation_sym (sorted_perm _))) in H.
        apply filter_In in H. destruct H as [H N].
        apply unique_In, texts_In in H. split; [exact H|].
        intros F. apply mem_In in F.
        change (negb (Py.mem x not_a_type) = true) in N.
        rewrite F in N. discriminate.
      * intros [H N]. apply (Permutation_in _ (sorted_perm _)).
        apply filter_In. split; [now apply unique_In, texts_In|].
        change (negb (Py.mem x not_a_type) = true).
        destruct (Py.mem x not_a_type) eqn:F; [|reflexivity].
        apply mem_In in F. contradiction.
Qed.

Lemma filter_partition {A : Type} (p q : A -> bool) (l : list A) :
  (forall x, q x = negb (p x)) ->
  (length (filter p l) + length (filter q l) = length l)%nat.
Proof.
  intros H. induction l as [|a l IH]; simpl; [reflexivity|].
  rewrite (H a). destruct (p a); simpl; lia.
Qed.

Lemma ne_eq_str (text : string) (c : Cell) :
  eq_str text c = negb (ne_str text c).
Proof.
  destruct c; simpl; try reflexivity. now rewrite negb_involutive.
Qed.

(** X9.  The lifetime cardio session count is the number of rows minus the
    rows whose cardio type is the text "None", whatever their minutes; so it
    never counts such a row and never exceeds the number of rows.  Without
    the column it is 0. *)
Theorem X9_cardio_sessions_leave_out_none (df : DataFrame) :
  let none_rows :=
    filter (eq_str "None") (pd.series df "Cardio Type") in
  (pd.has_column df "Cardio Type" = true ->
   get_cardio_sessions df
   = Z.of_nat (pd.len df) - Z.of_nat (length none_rows)) /\
  (pd.has_column df "Cardio Type" = false -> get_cardio_sessions df = 0) /\
  0 <= get_cardio_sessions df <= Z.of_nat (pd.len df).
Proof.
  cbv zeta. unfold get_cardio_sessions.
  pose proof (filter_partition (ne_str "None") (eq_str "None")
                (pd.series df "Cardio Type") (ne_eq_str "None")) as P.
  assert (Len : length (pd.series df "Cardio Type") = pd.len df)
    by apply length_map.
  destruct (pd.has_column df "Cardio Type").
  - split; [intros _; lia|]. split; [discriminate | lia].
  - split; [discriminate|]. split; [reflexivity | lia].
Qed.

Lemma eq_str_true (text : string) (c : Cell) :
  eq_str text c = true <-> c = Str text.
Proof.
  destruct c; simpl; try (split; [discriminate | intros H; discriminate H]).
  rewrite String.eqb_eq. split; [now intros -> | now intros [= ->]].
Qed.

(** X10.  Drilling into a cardio type (any choice but "All") keeps exactly
    the rows of the subset whose cardio type is that text; for every type but
    "None" the session count shown is then the number of entries listed, and
    for "None" it is 0. *)
Theorem X10_drill_into_type (selected : string) (subset : DataFrame) :
  selected <> "All" ->
  let activity := filter_by_category selected subset in
  let sessions :=
    length (filter (ne_str "None") (pd.series activity "Cardio Type")) in
  (forall r, In r (rows activity) <->
             In r (rows subset) /\
             pd.get (snd r) "Cardio Type" = Str selected) /\
  (selected <> "None" -> sessions = pd.len activity) /\
  (selected = "None" -> sessions = 0%nat).
Proof.
  intros NA activity sessions.
  assert (E : activity
              = pd.select (fun r => eq_str selected (pd.get r "Cardio Type"))
                          subset).
  { unfold activity, filter_by_category.
    destruct (String.eqb_spec selected "All"); [contradiction | reflexivity]. }
  assert (R : forall r, In r (rows activity) <->
             In r (rows subset) /\
             pd.get (snd r) "Cardio Type" = Str selected).
  { intros r. rewrite E, select_rows_In, eq_str_true. reflexivity. }
  assert (C : forall c, In c (pd.series activity "Cardio Type") ->
                        c = Str selected).
  { intros c H. unfold pd.series in H. apply in_map_iff in H.
    destruct H as [r [<- H]]. now apply R in H. }
  split; [exact R|]. split.
  - intros NN. unfold sessions, pd.len.
    rewrite filter_all; [apply length_map|].
    intros c H. rewrite (C c H). simpl.
    destruct (String.eqb_spec selected "None"); [contradiction | reflexivity].
  - intros ->. unfold sessions.
    replace (filter (ne_str "None") (pd.series activity "Cardio Type"))
      with (@nil Cell); [reflexivity|].
    symmetry. induction (pd.series activity "Cardio Type") as [|c l IH];
      [reflexivity|]. simpl.
    rewrite (C c) by now left. simpl. apply IH.
    intros x H. apply C. now right.
Qed.

Lemma X10_witness :
  let subset := Examples.normalized Examples.window_sheet in
  "Run" <> "All" /\
  length (filter (ne_str "None")
            (pd.series (filter_by_category "Run" subset) "Cardio Type"))
  = pd.len (filter_by_category "Run" subset).
Proof.
  cbv zeta.
  assert (N : "Run" <> "All") by discriminate.
  split; [exact N|].
  apply (proj1 (proj2 (@X10_drill_into_type "Run"
                         (Examples.normalized Examples.window_sheet) N))).
  discriminate.
Defined.

(** ** Append on any table *)





(** ** The table as read *)

Lemma text_cols_nodup : NoDup text_cols.
Proof. repeat constructor; simpl; intuition discriminate. Qed.

Section Read.

Context {L : Library}.

Lemma fix_types_cells (df : DataFrame) :
  exists g : Row -> Row,
    rows (fix_types df) = map (fun r => (fst r, g (snd r))) (rows df) /\
    (forall c r, ~ In c text_cols -> pd.get (g r) c = pd.get r c) /\
    (forall c r, In c text_cols -> pd.has_column df c = true ->
                 pd.get (g r) c
                 = Str (str (pd.fillna (Str "N/A") (pd.get r c)))).
Proof.
  exact (coerce_columns_cells
           (fun c => Str (str (pd.fillna (Str "N/A") c))) df text_cols_nodup).
Qed.

Lemma fix_types_text (df : DataFrame) (col : string) (i : nat) (r : Row) :
  In col text_cols ->
  pd.has_column df col = true ->
  In (i, r) (rows (fix_types df)) ->
  is_text (pd.get r col) = true.
Proof.
  intros Hc Hh Hin. destruct (fix_types_cells df) as [g [Hg [_ Ha]]].
  rewrite Hg in Hin. apply in_map_iff in Hin.
  destruct Hin as [[j r0] [E _]]. cbn [fst snd] in E.
  inversion E; subst. now rewrite (Ha col r0 Hc Hh).
Qed.

Lemma not_blank_row (r : Row) (c : string) :
  pd.get r c <> NaN -> forallb (fun kv => pd.isna (snd kv)) r = false.
Proof.
  induction r as [|[k v] r IH]; simpl; intros H.
  - now contradiction H.
  - destruct (String.eqb k c).
    + destruct v; try reflexivity. now contradiction H.
    + rewrite (IH H). apply andb_false_r.
Qed.

Lemma stripped_row_blank (r : Row) :
  forallb (fun kv => pd.isna (snd kv))
          (map (fun kv => (Py.strip (fst kv), snd kv)) r)
  = forallb (fun kv => pd.isna (snd kv)) r.
Proof. induction r as [|kv r IH]; simpl; [reflexivity | now rewrite IH]. Qed.

End Read.

(** X12.  Lines 44-46 on a text column the header names (by its exact name):
    every cell of the column becomes text, a blank becoming "N/A" and a text
    staying as it is; each row keeps its label and its cells in the columns
    that are not text columns. *)
Theorem X12_text_columns_become_text (L : Library) (df : DataFrame)
        (col : string) :
  In col text_cols ->
  pd.has_column df col = true ->
  forall i r,
    In (i, r) (rows (fix_types df)) ->
    exists r0,
      In (i, r0) (rows df) /\
      is_text (pd.get r col) = true /\
      (pd.get r0 col = NaN -> pd.get r col = Str "N/A") /\
      (forall s, pd.get r0 col = Str s -> pd.get r col = Str s) /\
      (forall c, ~ In c text_cols -> pd.get r c = pd.get r0 c).
Proof.
  intros Hc Hh i r Hin.
  destruct (fix_types_cells df) as [g [Hg [Ho Ha]]].
  rewrite Hg in Hin. apply in_map_iff in Hin.
  destruct Hin as [[j r0] [E Hin]]. cbn [fst snd] in E.
  inversion E; subst; clear E.
  exists r0. split; [exact Hin|]. rewrite (Ha col r0 Hc Hh).
  split; [reflexivity|]. split; [|split].
  - intros ->. reflexivity.
  - intros s ->. reflexivity.
  - intros c N. now apply Ho.
Qed.

Lemma X12_witness :
  let df := pd.of_sheet Examples.gap_sheet in
  (In "Comments" text_cols /\ pd.has_column df "Comments" = true /\
   In (1%nat, Examples.filled_blank_row) (rows (@fix_types Concrete.lib df)))
  /\ is_text (pd.get Examples.filled_blank_row "Comments") = true.
Proof.
  cbv zeta.
  assert (Hc : In "Comments" text_cols) by (right; left; reflexivity).
  assert (Hh : pd.has_column (pd.of_sheet Examples.gap_sheet) "Comments"
               = true) by reflexivity.
  assert (Hin : In (1%nat, Examples.filled_blank_row)
                   (rows (@fix_types Concrete.lib
                            (pd.of_sheet Examples.gap_sheet))))
    by (vm_compute; right; left; reflexivity).
  split; [repeat split; assumption|].
  destruct (@X12_text_columns_become_text Concrete.lib _ _ Hc Hh _ _ Hin)
    as [r0 [_ [T _]]].
  exact T.
Defined.

(** X13.  When the header names one of the three text columns, reading the
    sheet drops no row: after lines 44-46 every row holds a text in that
    column, so line 49 finds no row that is blank throughout, and the table
    as read has one row per sheet row, labelled 0..n-1. *)
Theorem X13_read_drops_no_row (L : Library) (s : Sheet) (col : string)
        (df_raw : DataFrame) :
  In col text_cols ->
  Py.mem col (header s) = true ->
  snd (load (Some s)) = Ret df_raw ->
  pd.labels df_raw = seq 0 (length (body s)) /\
  pd.len df_raw = length (body s).
Proof.
  intros Hc Hh Hl.
  assert (E : df_raw
              = pd.dropna_all (pd.strip_columns (fix_types (pd.of_sheet s)))).
  { unfold load, bind, emit, ret in Hl. cbn [snd] in Hl. congruence. }
  assert (R : rows df_raw = rows (pd.strip_columns (fix_types (pd.of_sheet s)))).
  { rewrite E. unfold pd.dropna_all, pd.select. cbn [rows].
    apply filter_all. intros [i r'] Hin. cbn [snd].
    unfold pd.strip_columns in Hin. cbn [rows] in Hin.
    apply in_map_iff in Hin. destruct Hin as [[j r] [Er Hin]].
    cbn [fst snd] in Er. inversion Er; subst; clear Er.
    rewrite stripped_row_blank.
    pose proof (@fix_types_text L (pd.of_sheet s) col _ _ Hc Hh Hin) as T.
    rewrite (not_blank_row r col); [reflexivity|].
    intros F. rewrite F in T. discriminate. }
  assert (Lb : pd.labels df_raw = seq 0 (length (body s))).
  { unfold pd.labels. rewrite R. unfold pd.strip_columns. cbn [rows].
    rewrite map_map. cbn [fst].
    replace (map _ (rows (fix_types (pd.of_sheet s))))
      with (pd.labels (pd.of_sheet s))
      by (symmetry; apply labels_fix_types).
    unfold pd.labels, pd.of_sheet. cbn [rows]. apply labels_range_index. }
  split; [exact Lb|].
  unfold pd.len. rewrite <- (length_map fst).
  change (map fst (rows df_raw)) with (pd.labels df_raw).
  rewrite Lb. apply length_seq.
Qed.

Lemma X13_witness :
  let df_raw := Examples.loaded Examples.gap_sheet in
  (In "Comments" text_cols /\
   Py.mem "Comments" (header Examples.gap_sheet) = true /\
   snd (@load Concrete.lib (Some Examples.gap_sheet)) = Ret df_raw) /\
  pd.len df_raw = 3%nat.
Proof.
  cbv zeta.
  assert (Hc : In "Comments" text_cols) by (right; left; reflexivity).
  assert (Hh : Py.mem "Comments" (header Examples.gap_sheet) = true)
    by reflexivity.
  assert (Hl : snd (@load Concrete.lib (Some Examples.gap_sheet))
               = Ret (Examples.loaded Examples.gap_sheet))
    by (vm_compute; reflexivity).
  split; [repeat split; assumption|].
  exact (proj2 (@X13_read_drops_no_row Concrete.lib _ _ _ Hc Hh Hl)).
Defined.

(** ** Sorting for display *)

Section Sorting.

Context {L : Library}.
Hypothesis Hlaws : LibraryLaws L.

Lemma pick_all (rs : list (nat * Row)) (pre : list (nat * Row)) :
  flat_map (fun i => match nth_error (pre ++ rs) i with
                     | Some r => [r]
                     | None => []
                     end)
           (seq (length pre) (length rs))
  = rs.
Proof.
  revert pre. induction rs as [|r rs IH]; intros pre; simpl.
  - reflexivity.
  - rewrite nth_error_app2, Nat.sub_diag by lia. simpl. f_equal.
    specialize (IH (pre ++ [r])).
    rewrite length_app, Nat.add_1_r, <- app_assoc in IH. exact IH.
Qed.

Lemma picked_keys (key : Row -> Z) (rs : list (nat * Row))
      (perm : list nat) :
  Forall (fun i => (i < length rs)%nat) perm ->
  map (fun r => key (snd r))
      (flat_map (fun i => match nth_error rs i with
                          | Some r => [r]
                          | None => []
                          end) perm)
  = map (fun i => nth i (map (fun r => key (snd r)) rs) 0) perm.
Proof.
  induction 1 as [|i perm Hi F IH]; simpl; [reflexivity|].
  destruct (nth_error rs i) as [r|] eqn:E.
  - simpl. rewrite IH. f_equal. symmetry. now apply key_at.
  - apply nth_error_None in E. lia.
Qed.

Lemma sort_values_perm_sorted (key : Row -> Z) (df : DataFrame) :
  Permutation (rows (sort_values_desc key df)) (rows df) /\
  StronglySorted Z.ge
    (map (fun r => key (snd r)) (rows (sort_values_desc key df))).
Proof.
  unfold sort_values_desc. cbn [rows].
  set (ks := map (fun r => key (snd r)) (rows df)).
  pose proof (argsort_perm Hlaws ks) as P.
  assert (Len : length ks = length (rows df)) by apply length_map.
  split.
  - eapply perm_trans; [apply Permutation_flat_map, P|].
    rewrite Len. pose proof (pick_all (rows df) []) as E.
    cbn [app length] in E. rewrite E. reflexivity.
  - rewrite picked_keys; [apply (argsort_sorted Hlaws)|].
    apply Forall_forall. intros i Hi.
    apply (Permutation_in _ P) in Hi. apply in_seq in Hi. lia.
Qed.

End Sorting.

(** X14.  Sorting a table for display (by date, newest first) only reorders
    it: the sorted table has the same header and exactly the rows of the
    table, each as often as before, and the sort keys never increase from
    one row to the next.  The history log therefore lists every entry of the
    activity subset once, newest first. *)
Theorem X14_sort_only_reorders (L : Library) (key : Row -> Z)
        (df : DataFrame) :
  LibraryLaws L ->
  columns (sort_values_desc key df) = columns df /\
  Permutation (rows (sort_values_desc key df)) (rows df) /\
  StronglySorted Z.ge
    (map (fun r => key (snd r)) (rows (sort_values_desc key df))) /\
  pd.len (sort_values_desc key df) = pd.len df.
Proof.
  intros HL.
  destruct (sort_values_perm_sorted HL key df) as [P S].
  split; [reflexivity|]. split; [exact P|]. split; [exact S|].
  unfold pd.len. now apply Permutation_length.
Qed.

Lemma X14_witness :
  let df := Examples.normalized Examples.window_sheet in
  LibraryLaws Concrete.lib /\
  pd.len (@sort_values_desc Concrete.lib day_key df) = pd.len df.
Proof.
  cbv zeta. split; [exact ConcreteFacts.lib_laws|].
  exact (proj2 (proj2 (proj2
           (@X14_sort_only_reorders Concrete.lib day_key
              (Examples.normalized Examples.window_sheet)
              ConcreteFacts.lib_laws)))).
Defined.

(** ** Coercions *)

Lemma lower_ascii_idem (c : ascii) :
  Py.lower_ascii (Py.lower_ascii c) = Py.lower_ascii c.
Proof. destruct c as [[] [] [] [] [] [] [] []]; reflexivity. Qed.

Lemma lower_idem (s : string) : Py.lower (Py.lower s) = Py.lower s.
Proof.
  induction s as [|c s IH]; simpl; [reflexivity|].
  now rewrite lower_ascii_idem, IH.
Qed.

Lemma lower_ascii_plain (c : ascii) :
  Concrete.is_digit c || Ascii.eqb c "-"%char = true ->
  Py.lower_ascii c = c.
Proof.
  destruct c as [[] [] [] [] [] [] [] []]; intros H;
    try reflexivity; discriminate H.
Qed.

Lemma lower_plain (s : string) : plain_number s = true -> Py.lower s = s.
Proof.
  induction s as [|c s IH]; simpl; [reflexivity|].
  intros H. apply andb_true_iff in H. destruct H as [Hc Hs].
  now rewrite (lower_ascii_plain c Hc), (IH Hs).
Qed.

Lemma plain_uint (d : Decimal.uint) :
  plain_number (DecimalString.NilEmpty.string_of_uint d) = true.
Proof. induction d; simpl; auto. Qed.

Lemma plain_str_int (z : Z) : plain_number (Py.str_int z) = true.
Proof.
  unfold Py.str_int, DecimalString.NilZero.string_of_int,
    DecimalString.NilZero.string_of_uint.
  destruct (Z.to_int z) as [d|d]; destruct d; try reflexivity;
    apply (plain_uint (_ d)) || (simpl; apply plain_uint).
Qed.

Lemma plain_token (s : string) :
  plain_number s = true -> Py.mem s truthy_tokens = String.eqb s "1".
Proof.
  intros H. unfold Py.mem, truthy_tokens. cbn [existsb].
  assert (N : forall t, plain_number t = false -> String.eqb s t = false).
  { intros t Ht. destruct (String.eqb_spec s t) as [->|_]; [|reflexivity].
    congruence. }
  rewrite (N "true"), (N "1.0"), (N "yes"), (N "y"), (N "checked")
    by reflexivity.
  now rewrite !orb_false_r.
Qed.

Lemma str_int_one (z : Z) : String.eqb (Py.str_int z) "1" = (z =? 1).
Proof.
  destruct (Z.eqb_spec z 1) as [->|N]; [reflexivity|].
  apply String.eqb_neq. intros E. apply N.
  apply DecimalZ.to_int_inj.
  assert (I : DecimalString.NilZero.int_of_string (Py.str_int z)
              = Some (Z.to_int z)).
  { unfold Py.str_int. apply DecimalString.NilZero.isi.
    - destruct z; simpl; try discriminate;
        intros [= F]; now apply (DecimalPos.Unsigned.to_uint_nonnil p).
    - destruct z; simpl; try discriminate;
        intros [= F]; now apply (DecimalPos.Unsigned.to_uint_nonnil p). }
  rewrite E in I. simpl in I. now inversion I.
Qed.

(** X15.  The coercions of lines 65 and 71.  Coercing a cell twice gives
    what coercing it once gives, so a table that is already normalized keeps
    its numbers and its checkboxes; a checkbox that is already a boolean
    keeps its value; a whole number counts as checked exactly when it is 1; a
    blank is unchecked and, as a number, 0; and a text is read as a checkbox
    without regard to case. *)
Theorem X15_coercions_settle (L : Library) :
  (forall c, coerce_numeric (coerce_numeric c) = coerce_numeric c) /\
  (forall c, coerce_bool (coerce_bool c) = coerce_bool c) /\
  (forall b, coerce_bool (Bool b) = Bool b) /\
  (forall z, coerce_bool (Int z) = Bool (z =? 1)) /\
  coerce_bool NaN = Bool false /\
  coerce_numeric NaN = Float 0%Q /\
  (forall s, coerce_bool (Str s) = coerce_bool (Str (Py.lower s))).
Proof.
  assert (B : forall b, coerce_bool (Bool b) = Bool b)
    by (intros []; reflexivity).
  split; [|split; [|split; [|split; [|split; [|split]]]]].
  - intros c. destruct c; simpl; try reflexivity.
    now destruct (to_numeric s).
  - intros c. unfold coerce_bool at 2 3.
    apply B.
  - exact B.
  - intros z. unfold coerce_bool. cbn [str].
    now rewrite (lower_plain _ (plain_str_int z)),
      (plain_token _ (plain_str_int z)), str_int_one.
  - reflexivity.
  - reflexivity.
  - intros s. unfold coerce_bool. cbn [str]. now rewrite lower_idem.
Qed.

(** ** Rows laid out on the header *)












(** ** A run on a standard sheet *)

Section Standard.

Context {L : Library}.
Hypothesis Hlaws : LibraryLaws L.










End Standard.








(** ** The sheet after a write *)

Lemma conform_keys (cols : list string) (r : Row) :
  map fst (pd.conform cols r) = cols.
Proof.
  unfold pd.conform. rewrite map_map. cbn [fst]. apply map_id.
Qed.

Lemma removelast_Forall {A : Type} (P : A -> Prop) (l : list A) :
  Forall P l -> Forall P (removelast l).
Proof.
  induction 1 as [|a l H F IH]; simpl; [constructor|].
  destruct l; [constructor | now constructor].
Qed.

(** X17.  The two write paths keep the layout of the sheet: from a table
    with the fourteen columns of the form, each row laid out on them, both
    the table with an entry appended and the table without its last row have
    the same header and rows laid out on it, so what is written is again a
    sheet of that layout. *)
Theorem X17_writes_keep_the_layout (L : Library) (df_raw : DataFrame)
        (e : Entry) :
  keyed entry_columns df_raw ->
  standard_sheet (pd.to_sheet (append df_raw e)) /\
  standard_sheet (pd.to_sheet (delete_most_recent df_raw)).
Proof.
  intros [C F]. unfold standard_sheet, pd.to_sheet. cbn [header body].
  split; split.
  - unfold append, pd.concat, new_data. cbn [columns]. rewrite C.
    now rewrite (no_new_columns (incl_refl entry_columns)), app_nil_r.
  - unfold append, pd.concat, new_data. cbn [columns rows]. rewrite C.
    rewrite (no_new_columns (incl_refl entry_columns)), app_nil_r.
    rewrite range_index_rows. apply Forall_map, Forall_forall.
    intros r _. apply conform_keys.
  - exact C.
  - unfold delete_most_recent, pd.iloc_but_last. cbn [rows].
    rewrite map_removelast. apply removelast_Forall.
    apply Forall_map. exact F.
Qed.

Lemma X17_witness :
  let df_raw := Examples.loaded Examples.window_sheet in
  keyed entry_columns df_raw /\
  standard_sheet (pd.to_sheet (@append Concrete.lib df_raw Examples.an_entry)).
Proof.
  cbv zeta.
  assert (K : keyed entry_columns (Examples.loaded Examples.window_sheet)).
  { split; [reflexivity | vm_compute; repeat constructor]. }
  split; [exact K|].
  exact (proj1 (@X17_writes_keep_the_layout Concrete.lib _
                  Examples.an_entry K)).
Defined.




(** ** Totals *)







